(** * Employee sync system: change capture, batch extraction, batch application

    A shallow embedding of the change-capture core of the repository:

    - [scripts/init_hr_db.py]: the [employees] and [employee_change_log]
      tables and the two triggers that feed the change log;
    - [hr_mcp_server.py]: [detect_changes] and [create_sync_payload];
    - [scripts/init_payroll_db.py]: the [payroll_employees] and [sync_log]
      tables;
    - [payroll_agent.py]: [process_sync_payload].

    Tables are lists of rows in rowid order.  A cell holds NULL, an integer
    or a text; REAL and BLOB cells, and nested JSON values, are outside the
    model, and a bound value is stored as it is bound (payload values carry
    the storage class of the column they came from, for which SQLite's column
    affinity is the identity).  A JSON object is an association list in key
    order.  A file on disk holds the value that was dumped into it. *)

From Stdlib Require Import List String Ascii ZArith Bool Lia.
From Stdlib Require Import Permutation Sorted RelationClasses.
From Stdlib Require Import OrderedTypeEx DecimalString.
Import ListNotations.
Open Scope string_scope.

(** ** Cell values and SQL's three-valued comparisons *)

Inductive value : Type :=
| VNull
| VInt (z : Z)
| VText (s : string).

Definition value_eqb (a b : value) : bool :=
  match a, b with
  | VNull, VNull => true
  | VInt x, VInt y => Z.eqb x y
  | VText x, VText y => String.eqb x y
  | _, _ => false
  end.

Definition is_null (a : value) : bool :=
  match a with VNull => true | _ => false end.

(** A SQL condition evaluates to TRUE, FALSE or NULL ([None]). *)
Definition sql_bool : Type := option bool.

(** [a = b]: NULL when either side is NULL. *)
Definition sql_eq (a b : value) : sql_bool :=
  match a, b with
  | VNull, _ | _, VNull => None
  | _, _ => Some (value_eqb a b)
  end.

(** [a != b]: NULL when either side is NULL. *)
Definition sql_ne (a b : value) : sql_bool :=
  match a, b with
  | VNull, _ | _, VNull => None
  | _, _ => Some (negb (value_eqb a b))
  end.

(** [p OR q]: TRUE when either side is TRUE, else NULL when either is NULL. *)
Definition sql_or (p q : sql_bool) : sql_bool :=
  match p, q with
  | Some true, _ | _, Some true => Some true
  | Some false, Some false => Some false
  | _, _ => None
  end.

(** A WHERE or WHEN clause keeps a row only when it evaluates to TRUE. *)
Definition sql_holds (p : sql_bool) : bool :=
  match p with Some true => true | _ => false end.

(** ** JSON objects and JSON texts *)

(** A Python dict with string keys, as [json.loads] builds it. *)
Definition jobject : Type := list (string * value).

(** [d[k]]: [None] is a KeyError. *)
Fixpoint getitem (d : jobject) (k : string) : option value :=
  match d with
  | [] => None
  | (k', v) :: d' => if String.eqb k' k then Some v else getitem d' k
  end.

(** The content of a TEXT column that is meant to hold JSON: the text of an
    object, the empty text, or some other text [json.loads] rejects. *)
Inductive json_text : Type :=
| JsonObject (o : jobject)
| JsonEmpty
| JsonMalformed.

(** [json.loads(cell) if cell else {}] on a nullable TEXT cell; [None] is a
    JSONDecodeError. *)
Definition loads_or_empty (cell : option json_text) : option jobject :=
  match cell with
  | None => Some []
  | Some JsonEmpty => Some []
  | Some (JsonObject o) => Some o
  | Some JsonMalformed => None
  end.

(** ** The HR database (scripts/init_hr_db.py) *)

Record employee : Type := {
  e_employee_id : string;
  e_first_name : value;
  e_last_name : value;
  e_email : value;
  e_department : value;
  e_position : value;
  e_salary : value;
  e_status : value;
  e_created_at : string;
  e_updated_at : string
}.

Record change_log_row : Type := {
  cl_id : Z;
  cl_employee_id : string;
  cl_change_type : string;
  cl_old_values : option json_text;
  cl_new_values : option json_text;
  cl_change_timestamp : string;
  cl_processed : bool
}.

Record hr_database : Type := {
  employees : list employee;
  employee_change_log : list change_log_row
}.

(** AUTOINCREMENT: one more than the largest id in use (rows of the change
    log are never deleted). *)
Definition next_id (ids : list Z) : Z :=
  1 + fold_right Z.max 0%Z ids.

(** The WHEN clause of [employee_update_trigger]. *)
Definition employee_update_trigger_when (OLD NEW : employee) : sql_bool :=
  sql_or (sql_or (sql_or (sql_or (sql_or (sql_or
    (sql_ne (e_first_name OLD) (e_first_name NEW))
    (sql_ne (e_last_name OLD) (e_last_name NEW)))
    (sql_ne (e_email OLD) (e_email NEW)))
    (sql_ne (e_department OLD) (e_department NEW)))
    (sql_ne (e_position OLD) (e_position NEW)))
    (sql_ne (e_salary OLD) (e_salary NEW)))
    (sql_ne (e_status OLD) (e_status NEW)).

(** The two [json_object(...)] snapshots the triggers store. *)
Definition tracked_snapshot (r : employee) : jobject :=
  [ ("first_name", e_first_name r); ("last_name", e_last_name r);
    ("email", e_email r); ("department", e_department r);
    ("position", e_position r); ("salary", e_salary r);
    ("status", e_status r) ].

Definition insert_snapshot (r : employee) : jobject :=
  ("employee_id", VText (e_employee_id r)) :: tracked_snapshot r.

(** The row a trigger body inserts into [employee_change_log]; the id,
    the timestamp and the processed flag take their column defaults. *)
Definition log_insert (now : string) (log : list change_log_row)
    (eid kind : string) (old new : json_text) : list change_log_row :=
  log ++ [ {| cl_id := next_id (map cl_id log);
              cl_employee_id := eid;
              cl_change_type := kind;
              cl_old_values := Some old;
              cl_new_values := Some new;
              cl_change_timestamp := now;
              cl_processed := false |} ].

(** [employee_update_trigger]: AFTER UPDATE, FOR EACH ROW, WHEN ... *)
Definition employee_update_trigger (now : string) (OLD NEW : employee)
    (log : list change_log_row) : list change_log_row :=
  if sql_holds (employee_update_trigger_when OLD NEW)
  then log_insert now log (e_employee_id NEW) "UPDATE"
         (JsonObject (tracked_snapshot OLD)) (JsonObject (tracked_snapshot NEW))
  else log.

(** [employee_insert_trigger]: AFTER INSERT, FOR EACH ROW, unconditional. *)
Definition employee_insert_trigger (now : string) (NEW : employee)
    (log : list change_log_row) : list change_log_row :=
  log_insert now log (e_employee_id NEW) "INSERT"
    (JsonObject []) (JsonObject (insert_snapshot NEW)).

(** The specification's notion of a mutation that changed something: at
    least one tracked attribute of the row is not the same before and
    after. *)
Definition tracked_attributes (r : employee) : list value :=
  [ e_first_name r; e_last_name r; e_email r; e_department r;
    e_position r; e_salary r; e_status r ].

Fixpoint values_differ (xs ys : list value) : bool :=
  match xs, ys with
  | x :: xs', y :: ys' => negb (value_eqb x y) || values_differ xs' ys'
  | _, _ => false
  end.

Definition tracked_differs (OLD NEW : employee) : bool :=
  values_differ (tracked_attributes OLD) (tracked_attributes NEW).

(** *** Mutations of [employees] (scripts/add_update_employee.py)

    A statement that violates a constraint raises ([None]) and leaves the
    database as it was. *)

Definition valid_fields : list string :=
  [ "first_name"; "last_name"; "email"; "department"; "position";
    "salary"; "status" ].

Definition mem_string (k : string) (ks : list string) : bool :=
  existsb (String.eqb k) ks.

(** [SET k = v] on one row. *)
Definition set_column (r : employee) (kv : string * value) : employee :=
  let (k, v) := kv in
  let upd fn ln em dp po sa st :=
    {| e_employee_id := e_employee_id r;
       e_first_name := fn; e_last_name := ln; e_email := em;
       e_department := dp; e_position := po; e_salary := sa; e_status := st;
       e_created_at := e_created_at r; e_updated_at := e_updated_at r |} in
  let fn := e_first_name r in let ln := e_last_name r in
  let em := e_email r in let dp := e_department r in
  let po := e_position r in let sa := e_salary r in
  let st := e_status r in
  if String.eqb k "first_name" then upd v ln em dp po sa st
  else if String.eqb k "last_name" then upd fn v em dp po sa st
  else if String.eqb k "email" then upd fn ln v dp po sa st
  else if String.eqb k "department" then upd fn ln em v po sa st
  else if String.eqb k "position" then upd fn ln em dp v sa st
  else if String.eqb k "salary" then upd fn ln em dp po v st
  else if String.eqb k "status" then upd fn ln em dp po sa v
  else r.

Definition assign (set : jobject) (r : employee) : employee :=
  fold_left set_column set r.

(** NOT NULL on first_name, last_name and email. *)
Definition employee_not_null (r : employee) : bool :=
  negb (is_null (e_first_name r)) && negb (is_null (e_last_name r))
  && negb (is_null (e_email r)).

(** How many rows carry this email (UNIQUE never matches a NULL). *)
Definition email_count (em : value) (rows : list employee) : nat :=
  List.length (filter (fun r => sql_holds (sql_eq (e_email r) em)) rows).

(** [UPDATE employees SET <set> WHERE employee_id = ?], with the update
    trigger run for each updated row. *)
Definition sql_update_employees (now : string) (set : jobject) (eid : string)
    (db : hr_database) : option hr_database :=
  let hit r := String.eqb (e_employee_id r) eid in
  let rows' := map (fun r => if hit r then assign set r else r) (employees db) in
  let ok r' :=
    negb (hit r')
    || (employee_not_null r'
        && (negb (mem_string "email" (map fst set))
            || Nat.leb (email_count (e_email r') rows') 1)) in
  if forallb ok rows' then
    Some {| employees := rows';
            employee_change_log :=
              fold_left (fun log r =>
                           if hit r
                           then employee_update_trigger now r (assign set r) log
                           else log)
                        (employees db) (employee_change_log db) |}
  else None.

(** [update_employee(employee_id, **updates)] on an existing database. *)
Definition update_employee (now : string) (eid : string) (updates : jobject)
    (db : hr_database) : option hr_database :=
  if existsb (fun r => String.eqb (e_employee_id r) eid) (employees db) then
    let update_fields :=
      filter (fun kv => mem_string (fst kv) valid_fields
                        && negb (is_null (snd kv))) updates in
    match update_fields with
    | [] => Some db
    | _ => sql_update_employees now update_fields eid db
    end
  else Some db.

(** [add_employee(...)]: status, created_at and updated_at take their
    column defaults. *)
Definition add_employee (now : string) (eid : string)
    (first_name last_name email department position salary : value)
    (db : hr_database) : option hr_database :=
  if existsb (fun r => String.eqb (e_employee_id r) eid) (employees db) then
    Some db
  else
    let NEW :=
      {| e_employee_id := eid;
         e_first_name := first_name; e_last_name := last_name;
         e_email := email; e_department := department;
         e_position := position; e_salary := salary;
         e_status := VText "active";
         e_created_at := now; e_updated_at := now |} in
    if employee_not_null NEW
       && Nat.eqb (email_count email (employees db)) 0
    then Some {| employees := employees db ++ [NEW];
                 employee_change_log :=
                   employee_insert_trigger now NEW (employee_change_log db) |}
    else None.

(** *** The seed of the HR database (scripts/init_hr_db.py) *)

(** [INSERT INTO employees (employee_id, first_name, last_name, email,
    department, position, salary, status) VALUES (?, ...)], with the insert
    trigger run for the new row.  A second row with the same primary key, a
    NULL in a NOT NULL column or an email already in use raises. *)
Definition insert_employee (now : string) (eid : string)
    (first_name last_name email department position salary status : value)
    (db : hr_database) : option hr_database :=
  let NEW :=
    {| e_employee_id := eid;
       e_first_name := first_name; e_last_name := last_name;
       e_email := email; e_department := department;
       e_position := position; e_salary := salary;
       e_status := status;
       e_created_at := now; e_updated_at := now |} in
  if negb (existsb (fun r => String.eqb (e_employee_id r) eid) (employees db))
     && employee_not_null NEW
     && Nat.eqb (email_count email (employees db)) 0
  then Some {| employees := employees db ++ [NEW];
               employee_change_log :=
                 employee_insert_trigger now NEW (employee_change_log db) |}
  else None.

(** The [employees] list of [init_hr_database]. *)
Definition sample_employees
  : list (string * (string * string * string * string * string * Z * string)) :=
  [ ("EMP001", ("John", "Doe", "john.doe@company.com", "Engineering",
                "Senior Developer", 95000%Z, "active"));
    ("EMP002", ("Jane", "Smith", "jane.smith@company.com", "Marketing",
                "Marketing Manager", 85000%Z, "active"));
    ("EMP003", ("Bob", "Johnson", "bob.johnson@company.com", "Finance",
                "Financial Analyst", 70000%Z, "active"));
    ("EMP004", ("Alice", "Williams", "alice.williams@company.com", "HR",
                "HR Specialist", 65000%Z, "active"));
    ("EMP005", ("Charlie", "Brown", "charlie.brown@company.com", "Engineering",
                "Junior Developer", 60000%Z, "active")) ].

(** [cursor.executemany(INSERT ..., employees)] on the given database. *)
Fixpoint executemany_insert (now : string)
    (rows : list (string * (string * string * string * string * string * Z
                            * string)))
    (db : hr_database) : option hr_database :=
  match rows with
  | [] => Some db
  | (eid, (fn, ln, em, dp, po, sa, st)) :: rows' =>
      match insert_employee now eid (VText fn) (VText ln) (VText em)
              (VText dp) (VText po) (VInt sa) (VText st) db with
      | Some db' => executemany_insert now rows' db'
      | None => None
      end
  end.

(** [init_hr_database()]: a fresh database, the two tables and triggers, and
    the sample employees. *)
Definition init_hr_database (now : string) : option hr_database :=
  executemany_insert now sample_employees
    {| employees := []; employee_change_log := [] |}.

(** ** The payload file (hr_mcp_server.py, payroll_agent.py) *)

(** One entry of the payload's [changes] list. *)
Record change : Type := {
  ch_log_id : Z;
  ch_employee_id : string;
  ch_change_type : string;
  ch_old_values : jobject;
  ch_new_values : jobject;
  ch_change_timestamp : string;
  ch_current_employee_data : jobject
}.

Record payload_metadata : Type := {
  generated_by : string;
  sync_id : string;
  status : string;
  processed_timestamp : option string;
  processed_by : option string
}.

Record sync_payload : Type := {
  source_system : string;
  target_system : string;
  sync_timestamp : string;
  total_changes : nat;
  changes : list change;
  metadata : payload_metadata
}.

(** ** The payroll database (scripts/init_payroll_db.py) *)

Record payroll_employee : Type := {
  pe_employee_id : value;
  pe_full_name : value;
  pe_email : value;
  pe_department : value;
  pe_position : value;
  pe_base_salary : value;
  pe_pay_grade : value;
  pe_tax_status : value;
  pe_last_sync_timestamp : value;
  pe_created_at : value;
  pe_updated_at : value
}.

Record sync_log_row : Type := {
  sl_id : Z;
  sl_employee_id : string;
  sl_sync_type : string;
  sl_source_data : change;
  sl_sync_status : string;
  sl_error_message : option string;
  sl_sync_timestamp : string
}.

Record payroll_database : Type := {
  payroll_employees : list payroll_employee;
  sync_log : list sync_log_row
}.

(** ** The world the three tools run in

    [hr_db] is [None] when the HR database file does not exist;
    [payload_file] is [None] when there is no payload file.  Only committed
    database content is part of the world: what a connection wrote and did
    not commit is lost when the tool returns. *)

Record world : Type := {
  hr_db : option hr_database;
  payload_file : option sync_payload;
  payroll_db : payroll_database
}.

Definition with_payload_file (w : world) (p : sync_payload) : world :=
  {| hr_db := hr_db w; payload_file := Some p; payroll_db := payroll_db w |}.

Definition with_hr_db (w : world) (db : hr_database) : world :=
  {| hr_db := Some db; payload_file := payload_file w;
     payroll_db := payroll_db w |}.

Definition with_payroll_db (w : world) (db : payroll_database) : world :=
  {| hr_db := hr_db w; payload_file := payload_file w; payroll_db := db |}.

(** What a tool reports in its ["error"] field or message. *)
Inductive error : Type :=
| DatabaseNotFound
| JSONDecodeError
| OSError
| OperationalError
| IntegrityError
| KeyError (k : string).

(** ** The store's ORDER BY

    The two queries of hr_mcp_server.py end in
    [ORDER BY cl.change_timestamp ASC] and name no second key.  The store
    answers with the selected rows in some order that is ascending in the
    key; which one, it does not say.  Timestamps are texts and compare as
    texts. *)

Definition ts_le (a b : string) : Prop := String.leb a b = true.

Class OrderBy : Type := {
  order_by : forall {A : Type}, (A -> string) -> list A -> list A;
  order_by_perm :
    forall (A : Type) (key : A -> string) (l : list A),
      Permutation l (order_by key l);
  order_by_sorted :
    forall (A : Type) (key : A -> string) (l : list A),
      StronglySorted (fun a b => ts_le (key a) (key b)) (order_by key l)
}.

(** Two stores.  Both insert row after row into a sorted answer; [before]
    decides whether the new row goes in front of a row already there. *)
Fixpoint insert_by {A : Type} (before : string -> string -> bool)
    (key : A -> string) (x : A) (l : list A) : list A :=
  match l with
  | [] => [x]
  | y :: l' =>
      if before (key x) (key y) then x :: l
      else y :: insert_by before key x l'
  end.

Definition sort_by {A : Type} (before : string -> string -> bool)
    (key : A -> string) (l : list A) : list A :=
  fold_right (insert_by before key) [] l.

(** Rows with equal keys stay in rowid order. *)
Definition sort_rowid_asc {A : Type} (key : A -> string) (l : list A)
  : list A :=
  sort_by String.leb key l.

(** Rows with equal keys come out in reverse rowid order. *)
Definition sort_rowid_desc {A : Type} (key : A -> string) (l : list A)
  : list A :=
  sort_by String.ltb key l.

(** The order on timestamps is a total preorder, which is what the two
    stores need to meet the contract. *)

Lemma ts_le_refl (a : string) : ts_le a a.
Proof.
  unfold ts_le, String.leb.
  assert (H : String.compare a a = Eq) by (apply String_as_OT.cmp_eq; reflexivity).
  now rewrite H.
Qed.

Lemma ts_le_cases (a b : string) :
  ts_le a b <-> String_as_OT.lt a b \/ a = b.
Proof.
  unfold ts_le, String.leb.
  destruct (String.compare a b) eqn:E; split; intro H; try reflexivity.
  - right. now apply String_as_OT.cmp_eq.
  - left. now apply String_as_OT.cmp_lt.
  - discriminate.
  - destruct H as [H | H].
    + apply String_as_OT.cmp_lt in H. unfold String_as_OT.cmp in H. congruence.
    + apply String_as_OT.cmp_eq in H. unfold String_as_OT.cmp in H. congruence.
Qed.

Lemma ts_le_trans (a b c : string) : ts_le a b -> ts_le b c -> ts_le a c.
Proof.
  rewrite !ts_le_cases.
  intros [Hab | ->] [Hbc | ->]; auto.
  left. eapply String_as_OT.lt_trans; eassumption.
Qed.

Lemma ts_le_total (a b : string) : ts_le a b \/ ts_le b a.
Proof. apply String.leb_total. Qed.

Lemma ltb_ts_le (a b : string) : String.ltb a b = true -> ts_le a b.
Proof.
  unfold ts_le, String.ltb, String.leb.
  destruct (String.compare a b); congruence.
Qed.

Lemma not_ltb_ts_le (a b : string) : String.ltb a b = false -> ts_le b a.
Proof.
  unfold ts_le, String.ltb, String.leb. intro H.
  rewrite String.compare_antisym.
  destruct (String.compare a b); simpl; congruence.
Qed.

Lemma not_leb_ts_le (a b : string) : String.leb a b = false -> ts_le b a.
Proof.
  intro H. destruct (ts_le_total a b) as [H' | H']; [unfold ts_le in H'; congruence | exact H'].
Qed.

Section InsertionSort.

Variable before : string -> string -> bool.
Hypothesis before_le : forall a b, before a b = true -> ts_le a b.
Hypothesis not_before_ge : forall a b, before a b = false -> ts_le b a.

Context {A : Type} (key : A -> string).

Let le_key (a b : A) : Prop := ts_le (key a) (key b).

Lemma insert_by_perm (x : A) (l : list A) :
  Permutation (x :: l) (insert_by before key x l).
Proof.
  induction l as [| y l IH]; simpl.
  - reflexivity.
  - destruct (before (key x) (key y)).
    + reflexivity.
    + rewrite perm_swap. now apply perm_skip.
Qed.

Lemma sort_by_perm (l : list A) : Permutation l (sort_by before key l).
Proof.
  induction l as [| x l IH]; simpl.
  - constructor.
  - etransitivity; [apply perm_skip, IH | apply insert_by_perm].
Qed.

Lemma insert_by_sorted (x : A) (l : list A) :
  StronglySorted le_key l -> StronglySorted le_key (insert_by before key x l).
Proof.
  induction 1 as [| y l Hl IH Hy]; simpl.
  - repeat constructor.
  - destruct (before (key x) (key y)) eqn:E.
    + constructor; [now constructor |].
      apply before_le in E.
      constructor; [exact E |].
      eapply Forall_impl; [| exact Hy].
      intros z Hz. eapply ts_le_trans; [exact E | exact Hz].
    + constructor; [exact IH |].
      apply not_before_ge in E.
      eapply Permutation_Forall; [apply insert_by_perm |].
      constructor; assumption.
Qed.

Lemma sort_by_sorted (l : list A) : StronglySorted le_key (sort_by before key l).
Proof.
  induction l as [| x l IH]; simpl.
  - constructor.
  - now apply insert_by_sorted.
Qed.

End InsertionSort.

Definition rowid_asc_store : OrderBy := {|
  order_by := @sort_rowid_asc;
  order_by_perm := fun A key l =>
    sort_by_perm String.leb key l;
  order_by_sorted := fun A key l =>
    sort_by_sorted String.leb (fun a b H => H) not_leb_ts_le key l
|}.

Definition rowid_desc_store : OrderBy := {|
  order_by := @sort_rowid_desc;
  order_by_perm := fun A key l =>
    sort_by_perm String.ltb key l;
  order_by_sorted := fun A key l =>
    sort_by_sorted String.ltb ltb_ts_le not_ltb_ts_le key l
|}.

(** ** The batch extractor (hr_mcp_server.py) *)

Section Extractor.

Context {store : OrderBy}.

(** [FROM employee_change_log cl LEFT JOIN employees e
     ON cl.employee_id = e.employee_id]: [employee_id] is the primary key of
    [employees], so a log row meets at most one employee. *)
Definition left_join (db : hr_database) (cl : change_log_row)
  : change_log_row * option employee :=
  (cl, find (fun e => String.eqb (cl_employee_id cl) (e_employee_id e))
            (employees db)).

(** The query shared by [detect_changes] and [create_sync_payload]. *)
Definition select_unprocessed (db : hr_database)
  : list (change_log_row * option employee) :=
  order_by (fun row => cl_change_timestamp (fst row))
    (filter (fun row => negb (cl_processed (fst row)))
       (map (left_join db) (employee_change_log db))).

(** The seven [e.*] columns of a joined row: NULL where no employee joined. *)
Definition current_employee_data (e : option employee) : jobject :=
  match e with
  | Some r => tracked_snapshot r
  | None =>
      [ ("first_name", VNull); ("last_name", VNull); ("email", VNull);
        ("department", VNull); ("position", VNull); ("salary", VNull);
        ("status", VNull) ]
  end.

(** The [change_data] dict built from one row. *)
Definition change_data (row : change_log_row * option employee)
  : error + change :=
  let (cl, e) := row in
  match loads_or_empty (cl_old_values cl) with
  | None => inl JSONDecodeError
  | Some old =>
      match loads_or_empty (cl_new_values cl) with
      | None => inl JSONDecodeError
      | Some new =>
          inr {| ch_log_id := cl_id cl;
                 ch_employee_id := cl_employee_id cl;
                 ch_change_type := cl_change_type cl;
                 ch_old_values := old;
                 ch_new_values := new;
                 ch_change_timestamp := cl_change_timestamp cl;
                 ch_current_employee_data := current_employee_data e |}
      end
  end.

(** [for row in cursor.fetchall(): ... changes.append(change_data)] *)
Fixpoint collect_changes (rows : list (change_log_row * option employee))
  : error + list change :=
  match rows with
  | [] => inr []
  | row :: rows' =>
      match change_data row with
      | inl e => inl e
      | inr c =>
          match collect_changes rows' with
          | inl e => inl e
          | inr cs => inr (c :: cs)
          end
      end
  end.

Inductive detect_result : Type :=
| DetectError (e : error)
| Detected (changes_count : nat) (detected : list change) (timestamp : string).

(** [detect_changes()] *)
Definition detect_changes (now : string) (w : world) : detect_result * world :=
  match hr_db w with
  | None => (DetectError DatabaseNotFound, w)
  | Some db =>
      match collect_changes (select_unprocessed db) with
      | inl e => (DetectError e, w)
      | inr cs => (Detected (List.length cs) cs now, w)
      end
  end.

(** Where the storage layer may raise during [create_sync_payload]: when the
    payload file is opened for writing, when the UPDATE of the flags is
    executed, or when the transaction is committed. *)
Inductive fault : Type :=
| NoFault
| PayloadWriteFails
| FlagUpdateFails
| CommitFails.

Inductive create_result : Type :=
| CreateError (e : error)
| NoUnprocessedChanges
| PayloadCreated (changes_processed : nat) (id : string) (timestamp : string).

(** The ["changes_processed"] field of a success result. *)
Definition changes_processed (r : create_result) : option nat :=
  match r with
  | CreateError _ => None
  | NoUnprocessedChanges => Some 0
  | PayloadCreated n _ _ => Some n
  end.

Definition is_error (r : create_result) : bool :=
  match r with CreateError _ => true | _ => false end.

(** [UPDATE employee_change_log SET processed = TRUE WHERE id IN (...)] *)
Definition mark_processed (log_ids : list Z) (log : list change_log_row)
  : list change_log_row :=
  map (fun cl =>
         if existsb (Z.eqb (cl_id cl)) log_ids
         then {| cl_id := cl_id cl;
                 cl_employee_id := cl_employee_id cl;
                 cl_change_type := cl_change_type cl;
                 cl_old_values := cl_old_values cl;
                 cl_new_values := cl_new_values cl;
                 cl_change_timestamp := cl_change_timestamp cl;
                 cl_processed := true |}
         else cl) log.

(** The payload dict; [now] is [datetime.now().isoformat()] and [stamp] is
    [datetime.now().strftime('%Y%m%d_%H%M%S')]. *)
Definition make_payload (now stamp : string) (cs : list change) : sync_payload :=
  {| source_system := "hr_system";
     target_system := "payroll_system";
     sync_timestamp := now;
     total_changes := List.length cs;
     changes := cs;
     metadata :=
       {| generated_by := "HR Change Detection System";
          sync_id := "SYNC_" ++ stamp;
          status := "ready_for_sync";
          processed_timestamp := None;
          processed_by := None |} |}.

(** [create_sync_payload()]: the statements after the first [return] of the
    success path are never reached and are left out. *)
Definition create_sync_payload (f : fault) (now stamp : string) (w : world)
  : create_result * world :=
  match hr_db w with
  | None => (CreateError DatabaseNotFound, w)
  | Some db =>
      match collect_changes (select_unprocessed db) with
      | inl e => (CreateError e, w)
      | inr [] => (NoUnprocessedChanges, w)
      | inr cs =>
          let payload := make_payload now stamp cs in
          match f with
          | PayloadWriteFails => (CreateError OSError, w)
          | _ =>
              (* json.dump(payload, f, indent=2) *)
              let w1 := with_payload_file w payload in
              let log_ids := map ch_log_id cs in
              match f with
              | FlagUpdateFails => (CreateError OperationalError, w1)
              | CommitFails => (CreateError OperationalError, w1)
              | _ =>
                  (* cursor.execute(UPDATE ...); conn.commit() *)
                  let db' :=
                    {| employees := employees db;
                       employee_change_log :=
                         mark_processed log_ids (employee_change_log db) |} in
                  (PayloadCreated (List.length cs) (sync_id (metadata payload))
                     now,
                   with_hr_db w1 db')
              end
          end
      end
  end.

End Extractor.

Arguments detect_changes {store} now w.
Arguments create_sync_payload {store} f now stamp w.
Arguments select_unprocessed {store} db.

(** ** The batch applier (payroll_agent.py) *)

(** [str(v)], as an f-string renders a value. *)
Definition py_str (v : value) : string :=
  match v with
  | VNull => "None"
  | VInt z => NilZero.string_of_int (Z.to_int z)
  | VText s => s
  end.

(** [d[k]] inside the applier's [try]. *)
Definition require (d : jobject) (k : string) : error + value :=
  match getitem d k with
  | Some v => inr v
  | None => inl (KeyError k)
  end.

Definition bind {A B : Type} (m : error + A) (k : A -> error + B) : error + B :=
  match m with
  | inl e => inl e
  | inr a => k a
  end.

Notation "x <- m ;; k" := (bind m (fun x => k))
  (at level 61, m at next level, right associativity).

(** The row with this primary key, if any. *)
Definition pe_hit (key : value) (r : payroll_employee) : bool :=
  sql_holds (sql_eq (pe_employee_id r) key).

Definition lookup_payroll (key : value) (t : list payroll_employee)
  : option payroll_employee :=
  find (pe_hit key) t.

Definition pe_email_count (em : value) (t : list payroll_employee) : nat :=
  List.length (filter (fun r => sql_holds (sql_eq (pe_email r) em)) t).

(** The row an INSERT into [payroll_employees] builds from the eight listed
    columns: [pay_grade] is NULL, [created_at] and [updated_at] take
    CURRENT_TIMESTAMP. *)
Definition new_payroll_row (sql_now : string)
    (employee_id full_name email department position base_salary tax_status
       last_sync_timestamp : value) : payroll_employee :=
  {| pe_employee_id := employee_id;
     pe_full_name := full_name;
     pe_email := email;
     pe_department := department;
     pe_position := position;
     pe_base_salary := base_salary;
     pe_pay_grade := VNull;
     pe_tax_status := tax_status;
     pe_last_sync_timestamp := last_sync_timestamp;
     pe_created_at := VText sql_now;
     pe_updated_at := VText sql_now |}.

(** [SET full_name=?, email=?, department=?, position=?, base_salary=?,
    tax_status=?, last_sync_timestamp=?] on one row. *)
Definition set_synced_columns
    (full_name email department position base_salary tax_status
       last_sync_timestamp : value) (r : payroll_employee) : payroll_employee :=
  {| pe_employee_id := pe_employee_id r;
     pe_full_name := full_name;
     pe_email := email;
     pe_department := department;
     pe_position := position;
     pe_base_salary := base_salary;
     pe_pay_grade := pe_pay_grade r;
     pe_tax_status := tax_status;
     pe_last_sync_timestamp := last_sync_timestamp;
     pe_created_at := pe_created_at r;
     pe_updated_at := pe_updated_at r |}.

(** [SET tax_status='inactive', last_sync_timestamp=?] on one row. *)
Definition set_inactive (last_sync_timestamp : value) (r : payroll_employee)
  : payroll_employee :=
  {| pe_employee_id := pe_employee_id r;
     pe_full_name := pe_full_name r;
     pe_email := pe_email r;
     pe_department := pe_department r;
     pe_position := pe_position r;
     pe_base_salary := pe_base_salary r;
     pe_pay_grade := pe_pay_grade r;
     pe_tax_status := VText "inactive";
     pe_last_sync_timestamp := last_sync_timestamp;
     pe_created_at := pe_created_at r;
     pe_updated_at := pe_updated_at r |}.

(** The rows an INSERT OR REPLACE deletes: those that clash with the new row
    on the primary key or on the unique email. *)
Definition clashes (employee_id email : value) (r : payroll_employee) : bool :=
  pe_hit employee_id r || sql_holds (sql_eq (pe_email r) email).

(** [INSERT OR REPLACE INTO payroll_employees (employee_id, full_name, email,
    department, position, base_salary, tax_status, last_sync_timestamp)]:
    the clashing rows are deleted, then the new row is inserted; a NULL in a
    NOT NULL column without a default aborts the statement. *)
Definition insert_or_replace (sql_now : string)
    (employee_id full_name email department position base_salary tax_status
       last_sync_timestamp : value)
    (t : list payroll_employee) : error + list payroll_employee :=
  if is_null full_name || is_null email then inl IntegrityError
  else
    inr (filter (fun r => negb (clashes employee_id email r)) t
         ++ [ new_payroll_row sql_now employee_id full_name email department
                position base_salary tax_status last_sync_timestamp ])%list.

(** [UPDATE payroll_employees SET full_name=?, email=?, department=?,
    position=?, base_salary=?, tax_status=?, last_sync_timestamp=?
    WHERE employee_id=?]: fails when an updated row would hold a NULL in a
    NOT NULL column or an email another row holds. *)
Definition update_payroll_employee
    (full_name email department position base_salary tax_status
       last_sync_timestamp : value) (employee_id : string)
    (t : list payroll_employee) : error + list payroll_employee :=
  let t' :=
    map (fun r =>
           if pe_hit (VText employee_id) r
           then set_synced_columns full_name email department position
                  base_salary tax_status last_sync_timestamp r
           else r) t in
  let ok r' :=
    negb (pe_hit (VText employee_id) r')
    || (negb (is_null full_name) && negb (is_null email)
        && Nat.leb (pe_email_count email t') 1) in
  if forallb ok t' then inr t' else inl IntegrityError.

(** [UPDATE payroll_employees SET tax_status='inactive',
    last_sync_timestamp=? WHERE employee_id=?] *)
Definition deactivate_payroll_employee (last_sync_timestamp : value)
    (employee_id : string) (t : list payroll_employee)
  : list payroll_employee :=
  map (fun r =>
         if pe_hit (VText employee_id) r
         then set_inactive last_sync_timestamp r
         else r) t.

(** The lines collected in [results]. *)
Inductive result_line : Type :=
| Added (employee_id full_name : string)
| Updated (employee_id full_name : string)
| Deactivated (employee_id : string).

(** The body of the first [for change in payload['changes']] loop, up to
    [processed_count += 1]; [now] is [datetime.now().isoformat()]. *)
Definition apply_change (now sql_now : string) (c : change)
    (t : list payroll_employee)
  : error + (list payroll_employee * list result_line) :=
  let employee_id := ch_employee_id c in
  let change_type := ch_change_type c in
  if String.eqb change_type "INSERT" then
    let new_data := ch_new_values c in
    first <- require new_data "first_name" ;;
    last <- require new_data "last_name" ;;
    let full_name := py_str first ++ " " ++ py_str last in
    id <- require new_data "employee_id" ;;
    email <- require new_data "email" ;;
    department <- require new_data "department" ;;
    position <- require new_data "position" ;;
    salary <- require new_data "salary" ;;
    status <- require new_data "status" ;;
    t' <- insert_or_replace sql_now id (VText full_name) email department
            position salary status (VText now) t ;;
    inr (t', [Added employee_id full_name])
  else if String.eqb change_type "UPDATE" then
    let new_data := ch_new_values c in
    first <- require new_data "first_name" ;;
    last <- require new_data "last_name" ;;
    let full_name := py_str first ++ " " ++ py_str last in
    email <- require new_data "email" ;;
    department <- require new_data "department" ;;
    position <- require new_data "position" ;;
    salary <- require new_data "salary" ;;
    status <- require new_data "status" ;;
    t' <- update_payroll_employee (VText full_name) email department position
            salary status (VText now) employee_id t ;;
    inr (t', [Updated employee_id full_name])
  else if String.eqb change_type "DELETE" then
    inr (deactivate_payroll_employee (VText now) employee_id t,
         [Deactivated employee_id])
  else inr (t, []).

(** The first loop; [clock i] is the time read while the [i]-th change is
    applied.  Returns the table, [processed_count] and [results]. *)
Fixpoint apply_changes (clock : nat -> string) (sql_now : string) (i : nat)
    (cs : list change) (t : list payroll_employee)
    (processed_count : nat) (results : list result_line)
  : error + (list payroll_employee * nat * list result_line) :=
  match cs with
  | [] => inr (t, processed_count, results)
  | c :: cs' =>
      r <- apply_change (clock i) sql_now c t ;;
      apply_changes clock sql_now (S i) cs' (fst r)
        (processed_count + 1) (results ++ snd r)%list
  end.

(** The second loop: [INSERT INTO sync_log (employee_id, sync_type,
    source_data, sync_status) VALUES (?, ?, ?, 'completed')]. *)
Definition log_sync (sql_now : string) (log : list sync_log_row) (c : change)
  : list sync_log_row :=
  log ++ [ {| sl_id := next_id (map sl_id log);
              sl_employee_id := ch_employee_id c;
              sl_sync_type := "HR_" ++ ch_change_type c;
              sl_source_data := c;
              sl_sync_status := "completed";
              sl_error_message := None;
              sl_sync_timestamp := sql_now |} ].

Inductive process_result : Type :=
| NoSyncPayloadFound
| ProcessError (e : error)
| SyncCompleted (processed_count : nat) (source id : string)
    (results : list result_line).

Definition mark_payload_processed (now : string) (p : sync_payload)
  : sync_payload :=
  {| source_system := source_system p;
     target_system := target_system p;
     sync_timestamp := sync_timestamp p;
     total_changes := total_changes p;
     changes := changes p;
     metadata :=
       {| generated_by := generated_by (metadata p);
          sync_id := sync_id (metadata p);
          status := "processed";
          processed_timestamp := Some now;
          processed_by := Some "Payroll System Agent" |} |}.

(** [process_sync_payload()]: one connection, one [try], one commit after
    both loops. *)
Definition process_sync_payload (clock : nat -> string) (sql_now : string)
    (w : world) : process_result * world :=
  match payload_file w with
  | None => (NoSyncPayloadFound, w)
  | Some payload =>
      let db := payroll_db w in
      match apply_changes clock sql_now 0 (changes payload)
              (payroll_employees db) 0 [] with
      | inl e => (ProcessError e, w)
      | inr (t', processed_count, results) =>
          let db' :=
            {| payroll_employees := t';
               sync_log := fold_left (log_sync sql_now) (changes payload)
                             (sync_log db) |} in
          let payload' :=
            mark_payload_processed (clock (List.length (changes payload)))
              payload in
          (SyncCompleted processed_count (source_system payload)
             (sync_id (metadata payload)) results,
           with_payload_file (with_payroll_db w db') payload')
      end
  end.

(** ** Shared helpers (shared/utils.py) *)

Definition newline : string := String (Ascii.ascii_of_nat 10) EmptyString.

(** [format_validation_errors(errors, warnings)] *)
Definition format_validation_errors (errors warnings : list string) : string :=
  let result :=
    ((match errors with
      | [] => []
      | _ => "❌ ERRORS:" :: map (fun error => ("  • " ++ error)%string) errors
      end)
     ++
     (match warnings with
      | [] => []
      | _ => "⚠️  WARNINGS:" :: map (fun warning => ("  • " ++ warning)%string) warnings
      end))%list in
  match result with
  | [] => "✅ No validation issues"
  | _ => String.concat newline result
  end.

(** * Vocabulary of the specification *)

Definition unprocessed (cl : change_log_row) : bool := negb (cl_processed cl).

(** The specification's order: by [change_timestamp], and by [log_id] among
    equal timestamps. *)
Definition timestamp_then_log_id (a b : change) : Prop :=
  ts_le (ch_change_timestamp a) (ch_change_timestamp b)
  /\ (ch_change_timestamp a = ch_change_timestamp b ->
      (ch_log_id a <= ch_log_id b)%Z).

Definition by_timestamp (a b : change) : Prop :=
  ts_le (ch_change_timestamp a) (ch_change_timestamp b).

(** The [changes] list of the payload file, empty when there is no file. *)
Definition written_changes (w : world) : list change :=
  match payload_file w with
  | Some p => changes p
  | None => []
  end.

(** Two answers of [detect_changes] agree on everything but the clock. *)
Definition same_detection (r1 r2 : detect_result) : Prop :=
  match r1, r2 with
  | DetectError e1, DetectError e2 => e1 = e2
  | Detected n1 cs1 _, Detected n2 cs2 _ => n1 = n2 /\ cs1 = cs2
  | _, _ => False
  end.

(** What the second loop appends to [sync_log]. *)
Definition completed_entry_for (c : change) (e : sync_log_row) : Prop :=
  sl_source_data e = c
  /\ sl_employee_id e = ch_employee_id c
  /\ sl_sync_type e = "HR_" ++ ch_change_type c
  /\ sl_sync_status e = "completed"
  /\ sl_error_message e = None.

(** The payload with another [metadata] block. *)
Definition with_metadata (p : sync_payload) (m : payload_metadata)
  : sync_payload :=
  {| source_system := source_system p;
     target_system := target_system p;
     sync_timestamp := sync_timestamp p;
     total_changes := total_changes p;
     changes := changes p;
     metadata := m |}.

Definition processed_count_of (r : process_result) : option nat :=
  match r with
  | SyncCompleted n _ _ _ => Some n
  | _ => None
  end.

(** What an INSERT change does to the table: the snapshot has the eight
    keys, the rows clashing with it are gone and one new row is there. *)
Definition insert_effect (now sql_now : string) (c : change)
    (t t' : list payroll_employee) : Prop :=
  exists first last id email department position salary status,
    getitem (ch_new_values c) "first_name" = Some first
    /\ getitem (ch_new_values c) "last_name" = Some last
    /\ getitem (ch_new_values c) "employee_id" = Some id
    /\ getitem (ch_new_values c) "email" = Some email
    /\ getitem (ch_new_values c) "department" = Some department
    /\ getitem (ch_new_values c) "position" = Some position
    /\ getitem (ch_new_values c) "salary" = Some salary
    /\ getitem (ch_new_values c) "status" = Some status
    /\ let row :=
         new_payroll_row sql_now id
           (VText (py_str first ++ " " ++ py_str last))
           email department position salary status (VText now) in
       t' = (filter (fun r => negb (clashes id email r)) t ++ [row])%list
       /\ (is_null id = false -> lookup_payroll id t' = Some row).

(** What an UPDATE change does to the table: the snapshot has the seven
    tracked keys and the rows with the change's [employee_id] are rewritten;
    when there is none, nothing changes. *)
Definition update_effect (now : string) (c : change)
    (t t' : list payroll_employee) : Prop :=
  exists first last email department position salary status,
    getitem (ch_new_values c) "first_name" = Some first
    /\ getitem (ch_new_values c) "last_name" = Some last
    /\ getitem (ch_new_values c) "email" = Some email
    /\ getitem (ch_new_values c) "department" = Some department
    /\ getitem (ch_new_values c) "position" = Some position
    /\ getitem (ch_new_values c) "salary" = Some salary
    /\ getitem (ch_new_values c) "status" = Some status
    /\ t' = map (fun r =>
                   if pe_hit (VText (ch_employee_id c)) r
                   then set_synced_columns
                          (VText (py_str first ++ " " ++ py_str last))
                          email department position salary status
                          (VText now) r
                   else r) t
    /\ (lookup_payroll (VText (ch_employee_id c)) t = None -> t' = t).

(** [r'] is [r] with only [tax_status] and [last_sync_timestamp] rewritten. *)
Definition deactivated_from (now : string) (r r' : payroll_employee) : Prop :=
  pe_employee_id r' = pe_employee_id r
  /\ pe_full_name r' = pe_full_name r
  /\ pe_email r' = pe_email r
  /\ pe_department r' = pe_department r
  /\ pe_position r' = pe_position r
  /\ pe_base_salary r' = pe_base_salary r
  /\ pe_pay_grade r' = pe_pay_grade r
  /\ pe_created_at r' = pe_created_at r
  /\ pe_updated_at r' = pe_updated_at r
  /\ pe_tax_status r' = VText "inactive"
  /\ pe_last_sync_timestamp r' = VText now.

Definition unknown_change_type (c : change) : bool :=
  negb (String.eqb (ch_change_type c) "INSERT")
  && negb (String.eqb (ch_change_type c) "UPDATE")
  && negb (String.eqb (ch_change_type c) "DELETE").

(** A change event with a stored snapshot that [json.loads] rejects. *)
Definition undecodable (cl : change_log_row) : Prop :=
  loads_or_empty (cl_old_values cl) = None
  \/ loads_or_empty (cl_new_values cl) = None.

(** ** Invariants of the two databases *)

(** Ids are positive and ascending in table order, as AUTOINCREMENT hands
    them out. *)
Definition ids_ascending (ids : list Z) : Prop :=
  StronglySorted Z.lt (0%Z :: ids).

(** Two change-log rows that differ at most in the processed flag. *)
Definition same_event (a b : change_log_row) : Prop :=
  cl_id a = cl_id b
  /\ cl_employee_id a = cl_employee_id b
  /\ cl_change_type a = cl_change_type b
  /\ cl_old_values a = cl_old_values b
  /\ cl_new_values a = cl_new_values b
  /\ cl_change_timestamp a = cl_change_timestamp b.

(** An employee row that differs from another at most in the seven tracked
    attributes. *)
Definition same_identity (a b : employee) : Prop :=
  e_employee_id a = e_employee_id b
  /\ e_created_at a = e_created_at b
  /\ e_updated_at a = e_updated_at b.

(** An UPDATE event of employee [eid] whose two snapshots differ. *)
Definition real_update_event (eid : string) (cl : change_log_row) : Prop :=
  cl_employee_id cl = eid
  /\ cl_change_type cl = "UPDATE"
  /\ cl_processed cl = false
  /\ exists OLD NEW,
      cl_old_values cl = Some (JsonObject (tracked_snapshot OLD))
      /\ cl_new_values cl = Some (JsonObject (tracked_snapshot NEW))
      /\ tracked_differs OLD NEW = true.

(** Rows whose key column [k] equals [v], SQL-wise, and how many there are. *)
Definition key_has (k : payroll_employee -> value) (v : value)
    (r : payroll_employee) : bool :=
  sql_holds (sql_eq (k r) v).

Definition key_count (k : payroll_employee -> value) (v : value)
    (t : list payroll_employee) : nat :=
  List.length (filter (key_has k v) t).

Definition key_unique (k : payroll_employee -> value)
    (t : list payroll_employee) : Prop :=
  Forall (fun r => key_count k (k r) t <= 1) t.

(** The constraints of [payroll_employees]: [full_name] and [email] NOT
    NULL, [employee_id] PRIMARY KEY, [email] UNIQUE. *)
Definition payroll_schema_ok (t : list payroll_employee) : Prop :=
  Forall (fun r => is_null (pe_full_name r) = false
                   /\ is_null (pe_email r) = false) t
  /\ key_unique pe_employee_id t
  /\ key_unique pe_email t.

(** The change types the applier has a branch for. *)
Definition known_change_type (c : change) : bool :=
  String.eqb (ch_change_type c) "INSERT"
  || String.eqb (ch_change_type c) "UPDATE"
  || String.eqb (ch_change_type c) "DELETE".

(** What a result line says: which branch ran, and for which employee. *)
Definition line_tag (l : result_line) : string * string :=
  match l with
  | Added eid _ => ("INSERT", eid)
  | Updated eid _ => ("UPDATE", eid)
  | Deactivated eid => ("DELETE", eid)
  end.

(** * Example states *)

(** An employee added with no department, as [add_employee(..., None, ...)]
    stores it. *)
Definition hr_null_department : hr_database :=
  {| employees :=
       [ {| e_employee_id := "EMP006";
            e_first_name := VText "Ada";
            e_last_name := VText "Lovelace";
            e_email := VText "ada.lovelace@company.com";
            e_department := VNull;
            e_position := VText "Analyst";
            e_salary := VInt 90000;
            e_status := VText "active";
            e_created_at := "2025-01-01 09:00:00";
            e_updated_at := "2025-01-01 09:00:00" |} ];
     employee_change_log :=
       [ {| cl_id := 1;
            cl_employee_id := "EMP006";
            cl_change_type := "INSERT";
            cl_old_values := Some (JsonObject []);
            cl_new_values :=
              Some (JsonObject
                      [ ("employee_id", VText "EMP006");
                        ("first_name", VText "Ada");
                        ("last_name", VText "Lovelace");
                        ("email", VText "ada.lovelace@company.com");
                        ("department", VNull);
                        ("position", VText "Analyst");
                        ("salary", VInt 90000);
                        ("status", VText "active") ]);
            cl_change_timestamp := "2025-01-01 09:00:00";
            cl_processed := false |} ] |}.

(** The payroll database as [init_payroll_db.py] seeds it. *)
Definition seed_payroll_employee (id name email dept pos : string) (salary : Z)
    (grade : string) : payroll_employee :=
  {| pe_employee_id := VText id;
     pe_full_name := VText name;
     pe_email := VText email;
     pe_department := VText dept;
     pe_position := VText pos;
     pe_base_salary := VInt salary;
     pe_pay_grade := VText grade;
     pe_tax_status := VText "active";
     pe_last_sync_timestamp := VNull;
     pe_created_at := VText "2025-01-01 08:00:00";
     pe_updated_at := VText "2025-01-01 08:00:00" |}.

Definition payroll_seed : payroll_database :=
  {| payroll_employees :=
       [ seed_payroll_employee "EMP001" "John Doe" "john.doe@company.com"
           "Engineering" "Senior Developer" 95000 "L5";
         seed_payroll_employee "EMP002" "Jane Smith" "jane.smith@company.com"
           "Marketing" "Marketing Manager" 85000 "L4";
         seed_payroll_employee "EMP003" "Bob Johnson" "bob.johnson@company.com"
           "Finance" "Financial Analyst" 70000 "L3" ];
     sync_log := [] |}.

(** One employee, one pending INSERT event, no payload file yet. *)
Definition world_one_pending : world :=
  {| hr_db := Some hr_null_department;
     payload_file := None;
     payroll_db := payroll_seed |}.

(** Two employees inserted within the same second: their INSERT events
    carry the same [change_timestamp]. *)
Definition hr_same_second : hr_database :=
  {| employees :=
       [ {| e_employee_id := "EMP001"; e_first_name := VText "John";
            e_last_name := VText "Doe";
            e_email := VText "john.doe@company.com";
            e_department := VText "Engineering";
            e_position := VText "Senior Developer";
            e_salary := VInt 95000; e_status := VText "active";
            e_created_at := "2025-01-01 08:00:00";
            e_updated_at := "2025-01-01 08:00:00" |};
         {| e_employee_id := "EMP002"; e_first_name := VText "Jane";
            e_last_name := VText "Smith";
            e_email := VText "jane.smith@company.com";
            e_department := VText "Marketing";
            e_position := VText "Marketing Manager";
            e_salary := VInt 85000; e_status := VText "active";
            e_created_at := "2025-01-01 08:00:00";
            e_updated_at := "2025-01-01 08:00:00" |} ];
     employee_change_log :=
       [ {| cl_id := 1; cl_employee_id := "EMP001"; cl_change_type := "INSERT";
            cl_old_values := Some (JsonObject []);
            cl_new_values :=
              Some (JsonObject
                      [ ("employee_id", VText "EMP001");
                        ("first_name", VText "John");
                        ("last_name", VText "Doe");
                        ("email", VText "john.doe@company.com");
                        ("department", VText "Engineering");
                        ("position", VText "Senior Developer");
                        ("salary", VInt 95000);
                        ("status", VText "active") ]);
            cl_change_timestamp := "2025-01-01 08:00:00";
            cl_processed := false |};
         {| cl_id := 2; cl_employee_id := "EMP002"; cl_change_type := "INSERT";
            cl_old_values := Some (JsonObject []);
            cl_new_values :=
              Some (JsonObject
                      [ ("employee_id", VText "EMP002");
                        ("first_name", VText "Jane");
                        ("last_name", VText "Smith");
                        ("email", VText "jane.smith@company.com");
                        ("department", VText "Marketing");
                        ("position", VText "Marketing Manager");
                        ("salary", VInt 85000);
                        ("status", VText "active") ]);
            cl_change_timestamp := "2025-01-01 08:00:00";
            cl_processed := false |} ] |}.

Definition world_same_second : world :=
  {| hr_db := Some hr_same_second;
     payload_file := None;
     payroll_db := payroll_seed |}.

(** The run in which the flag update fails. *)
Definition run_flag_update_fails : create_result * world :=
  create_sync_payload (store := rowid_asc_store) FlagUpdateFails
    "2025-01-02T10:00:00" "20250102_100000" world_one_pending.

(** The changes [detect_changes] lists in [world_same_second]. *)
Definition detected_same_second : list change :=
  match fst (detect_changes (store := rowid_asc_store) "2025-01-02T10:00:00"
               world_same_second) with
  | Detected _ cs _ => cs
  | DetectError _ => []
  end.

(** The time read while the [i]-th change is applied. *)
Definition tick (i : nat) : string :=
  "2025-01-03T09:00:00." ++ NilZero.string_of_uint (Nat.to_uint i).

Definition snapshot_of (id first last email dept pos : string) (salary : Z)
  : jobject :=
  [ ("employee_id", VText id); ("first_name", VText first);
    ("last_name", VText last); ("email", VText email);
    ("department", VText dept); ("position", VText pos);
    ("salary", VInt salary); ("status", VText "active") ].

Definition change_of (log_id : Z) (id kind : string) (new : jobject) : change :=
  {| ch_log_id := log_id;
     ch_employee_id := id;
     ch_change_type := kind;
     ch_old_values := [];
     ch_new_values := new;
     ch_change_timestamp := "2025-01-02 10:00:00";
     ch_current_employee_data := [] |}.

(** An INSERT whose snapshot lacks [first_name]. *)
Definition insert_without_first_name : change :=
  change_of 7 "EMP007" "INSERT"
    [ ("employee_id", VText "EMP007"); ("last_name", VText "Hopper");
      ("email", VText "grace.hopper@company.com");
      ("department", VText "Engineering"); ("position", VText "Admiral");
      ("salary", VInt 99000); ("status", VText "active") ].

Definition insert_emp008 : change :=
  change_of 8 "EMP008" "INSERT"
    (snapshot_of "EMP008" "Alan" "Turing" "alan.turing@company.com"
       "Research" "Fellow" 98000).

(** An UPDATE for an employee the payroll database has never seen. *)
Definition update_emp009 : change :=
  change_of 9 "EMP009" "UPDATE"
    (snapshot_of "EMP009" "Edsger" "Dijkstra" "edsger.dijkstra@company.com"
       "Research" "Professor" 97000).

Definition delete_emp002 : change :=
  change_of 10 "EMP002" "DELETE" [].

(** A change type the applier has no branch for. *)
Definition merge_emp001 : change :=
  change_of 11 "EMP001" "MERGE" [].

Definition world_with_payload (cs : list change) : world :=
  {| hr_db := None;
     payload_file := Some (make_payload "2025-01-02T10:00:00" "20250102_100000" cs);
     payroll_db := payroll_seed |}.

(** The world after one INSERT payload has been applied once. *)
Definition world_applied_once : world :=
  snd (process_sync_payload tick "2025-01-03 09:00:00"
         (world_with_payload [insert_emp008])).

Definition payload_applied_once : sync_payload :=
  mark_payload_processed (tick 1)
    (make_payload "2025-01-02T10:00:00" "20250102_100000" [insert_emp008]).

(** The starting point of the specification's scenarios: employee E1 added to
    an empty HR database. *)
Definition hr_after_insert_e1 : option hr_database :=
  add_employee "2025-01-01 09:00:00" "E1" (VText "Ada") (VText "Lovelace")
    (VText "ada@company.com") (VText "Eng") (VText "Engineer") (VInt 90000)
    {| employees := []; employee_change_log := [] |}.

Definition world_of (db : option hr_database) : world :=
  {| hr_db := db; payload_file := None; payroll_db := payroll_seed |}.

(** [hr_null_department] after a raise; the [nickname] is no column. *)
Definition hr_after_raise : hr_database :=
  match update_employee "2025-01-02 10:00:00" "EMP006"
          [("salary", VInt 95000); ("nickname", VText "Countess")]
          hr_null_department with
  | Some db => db
  | None => hr_null_department
  end.

(** An employee without a NULL attribute, before and after a promotion. *)
Definition john_doe : employee :=
  {| e_employee_id := "EMP001"; e_first_name := VText "John";
     e_last_name := VText "Doe"; e_email := VText "john.doe@company.com";
     e_department := VText "Engineering";
     e_position := VText "Senior Developer";
     e_salary := VInt 95000; e_status := VText "active";
     e_created_at := "2025-01-01 08:00:00";
     e_updated_at := "2025-01-01 08:00:00" |}.

Definition john_doe_promoted : employee :=
  assign [("salary", VInt 105000); ("position", VText "Principal Developer")]
    john_doe.

(** What an extraction from [hr_after_raise] collects: the INSERT and the
    UPDATE of EMP006. *)
Definition changes_after_raise : list change :=
  match collect_changes
          (select_unprocessed (store := rowid_asc_store) hr_after_raise) with
  | inr cs => cs
  | inl _ => []
  end.

(** [hr_same_second] with the snapshot of the second event damaged. *)
Definition hr_damaged : hr_database :=
  {| employees := employees hr_same_second;
     employee_change_log :=
       map (fun cl =>
              {| cl_id := cl_id cl;
                 cl_employee_id := cl_employee_id cl;
                 cl_change_type := cl_change_type cl;
                 cl_old_values := cl_old_values cl;
                 cl_new_values :=
                   if Z.eqb (cl_id cl) 2 then Some JsonMalformed
                   else cl_new_values cl;
                 cl_change_timestamp := cl_change_timestamp cl;
                 cl_processed := false |})
           (employee_change_log hr_same_second) |}.

Definition world_damaged : world :=
  {| hr_db := Some hr_damaged; payload_file := None;
     payroll_db := payroll_seed |}.

(** The world after a first extraction from [world_one_pending] that nobody
    applied, and a raise for EMP006 since. *)
Definition world_pending_then_raise : world :=
  let w1 := snd (create_sync_payload (store := rowid_asc_store) NoFault
                   "2025-01-02T09:00:00" "20250102_090000" world_one_pending) in
  match hr_db w1 with
  | Some db1 =>
      match update_employee "2025-01-02 10:00:00" "EMP006"
              [("salary", VInt 95000)] db1 with
      | Some db2 => with_hr_db w1 db2
      | None => w1
      end
  | None => w1
  end.

(** The HR database of [world_pending_then_raise]. *)
Definition hr_after_first_extraction : hr_database :=
  match hr_db world_pending_then_raise with
  | Some db => db
  | None => hr_null_department
  end.

(** A promotion of EMP001, who is in the seeded payroll table. *)
Definition update_emp001 : change :=
  change_of 12 "EMP001" "UPDATE"
    (snapshot_of "EMP001" "John" "Doe" "john.doe@company.com"
       "Engineering" "Principal Developer" 105000).

(** A batch that runs through every branch of the applier. *)
Definition world_mixed_batch : world :=
  world_with_payload
    [insert_emp008; delete_emp002; merge_emp001; update_emp009; update_emp001].

(** The keys the INSERT branch reads from a snapshot. *)
Definition insert_keys : list string :=
  [ "first_name"; "last_name"; "employee_id"; "email"; "department";
    "position"; "salary"; "status" ].

(** A new employee entered with the email of EMP002. *)
Definition insert_emp010_taking_email : change :=
  change_of 13 "EMP010" "INSERT"
    (snapshot_of "EMP010" "Joan" "Smith" "jane.smith@company.com"
       "Marketing" "Analyst" 60000).

Definition jane_smith : payroll_employee :=
  seed_payroll_employee "EMP002" "Jane Smith" "jane.smith@company.com"
    "Marketing" "Marketing Manager" 85000 "L4".

Definition payroll_after_emp010 : list payroll_employee :=
  match apply_change (tick 0) "2025-01-03 09:00:00" insert_emp010_taking_email
          (payroll_employees payroll_seed) with
  | inr (t', _) => t'
  | inl _ => []
  end.

(** The first payload of [world_pending_then_raise], never applied. *)
Definition pending_payload : sync_payload :=
  make_payload "2025-01-02T09:00:00" "20250102_090000"
    (written_changes world_pending_then_raise).

(** The empty HR database and E1 added to it. *)
Definition hr_empty : hr_database :=
  {| employees := []; employee_change_log := [] |}.

Definition hr_e1 : hr_database :=
  match hr_after_insert_e1 with
  | Some db => db
  | None => hr_empty
  end.

(** A batch that moves an email from one employee to another: EMP001 takes
    a new address, moves on to a second one, and EMP002 takes the first. *)
Definition world_email_handover : world :=
  world_with_payload
    [ change_of 21 "EMP001" "UPDATE"
        (snapshot_of "EMP001" "John" "Doe" "shared@company.com"
           "Engineering" "Senior Developer" 95000);
      change_of 22 "EMP001" "UPDATE"
        (snapshot_of "EMP001" "John" "Doe" "j.doe@company.com"
           "Engineering" "Senior Developer" 95000);
      change_of 23 "EMP002" "UPDATE"
        (snapshot_of "EMP002" "Jane" "Smith" "shared@company.com"
           "Marketing" "Marketing Manager" 85000) ].

(** * Properties *)

(** ** Values *)

Lemma value_eqb_spec (a b : value) : reflect (a = b) (value_eqb a b).
Proof.
  destruct a as [|x|x], b as [|y|y]; simpl; try (constructor; congruence).
  - destruct (Z.eqb_spec x y); constructor; congruence.
  - destruct (String.eqb_spec x y); constructor; congruence.
Qed.

Lemma value_eqb_refl (a : value) : value_eqb a a = true.
Proof. destruct (value_eqb_spec a a); congruence. Qed.

(** ** The update trigger *)

Lemma sql_or_true (p q : sql_bool) :
  sql_holds (sql_or p q) = sql_holds p || sql_holds q.
Proof. destruct p as [[|]|], q as [[|]|]; reflexivity. Qed.

Lemma sql_ne_true (a b : value) :
  sql_holds (sql_ne a b) = true -> value_eqb a b = false.
Proof.
  destruct a as [|x|x], b as [|y|y]; simpl; try discriminate;
    try reflexivity.
  - destruct (Z.eqb x y); [discriminate | reflexivity].
  - destruct (String.eqb x y); [discriminate | reflexivity].
Qed.

Lemma sql_ne_not_null (a b : value) :
  is_null a = false -> is_null b = false ->
  sql_holds (sql_ne a b) = negb (value_eqb a b).
Proof.
  destruct a as [|x|x], b as [|y|y]; simpl; try discriminate; intros _ _;
    try reflexivity.
  - destruct (Z.eqb x y); reflexivity.
  - destruct (String.eqb x y); reflexivity.
Qed.

(** Whenever the trigger fires, a tracked attribute differs. *)
Lemma update_trigger_fires_differs (OLD NEW : employee) :
  sql_holds (employee_update_trigger_when OLD NEW) = true ->
  tracked_differs OLD NEW = true.
Proof.
  unfold employee_update_trigger_when, tracked_differs, tracked_attributes.
  rewrite !sql_or_true. simpl values_differ. intro H.
  repeat (apply orb_true_iff in H; destruct H as [H | H]);
    apply sql_ne_true in H; rewrite H; simpl;
    rewrite ?orb_true_r; reflexivity.
Qed.

(** X5.  On rows without a NULL tracked attribute, before and after, the
    update trigger fires exactly when a tracked attribute differs. *)
Lemma update_trigger_not_null (OLD NEW : employee) :
  forallb (fun v => negb (is_null v)) (tracked_attributes OLD) = true ->
  forallb (fun v => negb (is_null v)) (tracked_attributes NEW) = true ->
  sql_holds (employee_update_trigger_when OLD NEW) = tracked_differs OLD NEW.
Proof.
  unfold employee_update_trigger_when, tracked_differs, tracked_attributes.
  simpl forallb. rewrite !andb_true_iff, !negb_true_iff.
  intros (H1 & H2 & H3 & H4 & H5 & H6 & H7 & _)
         (K1 & K2 & K3 & K4 & K5 & K6 & K7 & _).
  rewrite !sql_or_true. simpl values_differ.
  rewrite !sql_ne_not_null by assumption.
  rewrite orb_false_r, !orb_assoc. reflexivity.
Qed.

(** C7.  The claim says an UPDATE records a change event exactly when a
    tracked attribute differs between the old and the new row.  The trigger
    compares with [!=], which is NULL when either side is NULL: giving a
    department to an employee that had none changes a tracked attribute and
    records no event.  The starting state is what [add_employee] produces
    from an empty database. *)
Theorem update_trigger_misses_change_from_null :
  add_employee "2025-01-01 09:00:00" "EMP006" (VText "Ada") (VText "Lovelace")
    (VText "ada.lovelace@company.com") VNull (VText "Analyst") (VInt 90000)
    {| employees := []; employee_change_log := [] |}
  = Some hr_null_department
  /\ exists db' OLD NEW,
      update_employee "2025-01-02 10:00:00" "EMP006"
        [("department", VText "Engineering")] hr_null_department = Some db'
      /\ employees hr_null_department = [OLD]
      /\ employees db' = [NEW]
      /\ e_department OLD = VNull
      /\ e_department NEW = VText "Engineering"
      /\ tracked_differs OLD NEW = true
      /\ employee_change_log db' = employee_change_log hr_null_department.
Proof.
  split; [reflexivity |].
  do 3 eexists. repeat split; reflexivity.
Qed.

(** ** The batch extractor *)

Section ExtractorFacts.

Context {store : OrderBy}.

Lemma collect_changes_map rows cs :
  collect_changes rows = inr cs -> map change_data rows = map inr cs.
Proof.
  revert cs. induction rows as [| row rows IH]; simpl; intros cs H.
  - now inversion H.
  - destruct (change_data row) as [e | c]; [discriminate |].
    destruct (collect_changes rows) as [e | cs']; [discriminate |].
    inversion H; subst. simpl. f_equal. now apply IH.
Qed.

Lemma change_data_fields row c :
  change_data row = inr c ->
  ch_log_id c = cl_id (fst row)
  /\ ch_change_timestamp c = cl_change_timestamp (fst row).
Proof.
  destruct row as [cl e]. simpl.
  destruct (loads_or_empty (cl_old_values cl)); [| discriminate].
  destruct (loads_or_empty (cl_new_values cl)); [| discriminate].
  intro H. inversion H; subst. now split.
Qed.

Lemma select_unprocessed_perm db :
  Permutation (select_unprocessed db)
    (map (left_join db) (filter unprocessed (employee_change_log db))).
Proof.
  unfold select_unprocessed.
  etransitivity; [symmetry; apply order_by_perm |].
  induction (employee_change_log db) as [| cl log IH]; simpl.
  - reflexivity.
  - unfold unprocessed at 1. destruct (cl_processed cl); simpl.
    + exact IH.
    + now apply perm_skip.
Qed.

Lemma select_unprocessed_nil db :
  filter unprocessed (employee_change_log db) = [] ->
  select_unprocessed db = [].
Proof.
  intro H. apply Permutation_nil. symmetry.
  pose proof (select_unprocessed_perm db) as P.
  rewrite H in P. exact P.
Qed.

(** The changes collected are the [change_data] of the unprocessed rows. *)
Lemma collected_exactly_unprocessed db cs :
  collect_changes (select_unprocessed db) = inr cs ->
  Permutation (map inr cs)
    (map (fun cl => change_data (left_join db cl))
         (filter unprocessed (employee_change_log db))).
Proof.
  intro H. apply collect_changes_map in H. rewrite <- H.
  rewrite <- (map_map (left_join db) change_data).
  apply Permutation_map, select_unprocessed_perm.
Qed.

Lemma collected_in_order
    (Rrow : change_log_row * option employee ->
            change_log_row * option employee -> Prop)
    (Rch : change -> change -> Prop) rows cs :
  (forall r1 r2 c1 c2,
      change_data r1 = inr c1 -> change_data r2 = inr c2 ->
      Rrow r1 r2 -> Rch c1 c2) ->
  collect_changes rows = inr cs ->
  StronglySorted Rrow rows ->
  StronglySorted Rch cs.
Proof.
  intro Hrel. revert cs.
  induction rows as [| row rows IH]; simpl; intros cs H S.
  - inversion H. constructor.
  - destruct (change_data row) as [e | c] eqn:Ec; [discriminate |].
    destruct (collect_changes rows) as [e | cs'] eqn:Ecs; [discriminate |].
    inversion H; subst. inversion S as [| ? ? S' F]; subst.
    constructor; [now apply IH |].
    clear IH H S S'. revert cs' Ecs.
    induction F as [| row' rows' Hrow F IHF]; simpl; intros cs' Ecs.
    + inversion Ecs. constructor.
    + destruct (change_data row') as [e | c'] eqn:Ec'; [discriminate |].
      destruct (collect_changes rows') as [e | cs''] eqn:Ecs'; [discriminate |].
      inversion Ecs; subst. constructor; [| now apply IHF].
      now apply (Hrel row row').
Qed.

Lemma collected_sorted rows cs :
  collect_changes rows = inr cs ->
  StronglySorted
    (fun a b => ts_le (cl_change_timestamp (fst a)) (cl_change_timestamp (fst b)))
    rows ->
  StronglySorted by_timestamp cs.
Proof.
  apply collected_in_order. intros r1 r2 c1 c2 E1 E2 H.
  apply change_data_fields in E1. apply change_data_fields in E2.
  destruct E1 as [_ T1], E2 as [_ T2].
  unfold by_timestamp. now rewrite T1, T2.
Qed.

Lemma select_unprocessed_sorted db cs :
  collect_changes (select_unprocessed db) = inr cs ->
  StronglySorted by_timestamp cs.
Proof.
  intro H. eapply collected_sorted; [exact H |].
  unfold select_unprocessed. apply order_by_sorted.
Qed.

Lemma collect_changes_ids rows cs :
  collect_changes rows = inr cs ->
  map ch_log_id cs = map (fun row => cl_id (fst row)) rows.
Proof.
  revert cs. induction rows as [| row rows IH]; simpl; intros cs H.
  - now inversion H.
  - destruct (change_data row) as [e | c] eqn:Ec; [discriminate |].
    destruct (collect_changes rows) as [e | cs']; [discriminate |].
    inversion H; subst. simpl. f_equal; [| now apply IH].
    now apply change_data_fields in Ec.
Qed.

Lemma collected_log_ids db cs :
  collect_changes (select_unprocessed db) = inr cs ->
  Permutation (map ch_log_id cs)
    (map cl_id (filter unprocessed (employee_change_log db))).
Proof.
  intro H. rewrite (collect_changes_ids _ _ H).
  etransitivity; [apply Permutation_map, select_unprocessed_perm |].
  rewrite map_map. reflexivity.
Qed.

(** Every unprocessed row has its id among the collected changes. *)
Lemma collected_ids db cs cl :
  collect_changes (select_unprocessed db) = inr cs ->
  In cl (employee_change_log db) -> cl_processed cl = false ->
  In (cl_id cl) (map ch_log_id cs).
Proof.
  intros H Hin Hp.
  pose proof (collected_exactly_unprocessed db cs H) as P.
  assert (Hc : In (change_data (left_join db cl)) (map inr cs)).
  { eapply Permutation_in; [symmetry; exact P |].
    apply in_map_iff. exists cl. split; [reflexivity |].
    apply filter_In. split; [exact Hin |]. unfold unprocessed. now rewrite Hp. }
  apply in_map_iff in Hc. destruct Hc as (c & Hc & Hcin).
  symmetry in Hc. apply change_data_fields in Hc. destruct Hc as [Hid _].
  apply in_map_iff. exists c. split; [exact Hid | exact Hcin].
Qed.

Lemma mark_processed_all log_ids log :
  (forall cl, In cl log -> cl_processed cl = false -> In (cl_id cl) log_ids) ->
  Forall (fun cl => cl_processed cl = true) (mark_processed log_ids log).
Proof.
  intro H. unfold mark_processed. apply Forall_forall. intros cl' Hin.
  apply in_map_iff in Hin. destruct Hin as (cl & <- & Hin).
  destruct (existsb (Z.eqb (cl_id cl)) log_ids) eqn:E; [reflexivity |].
  destruct (cl_processed cl) eqn:Hp; [reflexivity |].
  specialize (H cl Hin Hp).
  assert (existsb (Z.eqb (cl_id cl)) log_ids = true).
  { apply existsb_exists. exists (cl_id cl). split; [exact H | apply Z.eqb_refl]. }
  congruence.
Qed.

Lemma all_processed_no_unprocessed log :
  Forall (fun cl => cl_processed cl = true) log ->
  filter unprocessed log = [].
Proof.
  induction 1 as [| cl log Hcl _ IH]; simpl; [reflexivity |].
  unfold unprocessed at 1. now rewrite Hcl.
Qed.

(** With nothing unprocessed the extractor returns at its first [return]
    of the success path, whatever the storage layer would have done. *)
Lemma create_sync_payload_nothing_to_do f now stamp w db :
  hr_db w = Some db ->
  filter unprocessed (employee_change_log db) = [] ->
  create_sync_payload f now stamp w = (NoUnprocessedChanges, w).
Proof.
  intros Hdb Hnil. unfold create_sync_payload.
  rewrite Hdb, (select_unprocessed_nil db Hnil). reflexivity.
Qed.

(** The shape of every run of [create_sync_payload]. *)
Lemma create_sync_payload_cases f now stamp w :
  (exists e, create_sync_payload f now stamp w = (CreateError e, w))
  \/ create_sync_payload f now stamp w = (NoUnprocessedChanges, w)
  \/ exists db cs,
      hr_db w = Some db
      /\ collect_changes (select_unprocessed db) = inr cs
      /\ cs <> []
      /\ ((f = PayloadWriteFails
           /\ create_sync_payload f now stamp w = (CreateError OSError, w))
          \/ ((f = FlagUpdateFails \/ f = CommitFails)
              /\ create_sync_payload f now stamp w
                 = (CreateError OperationalError,
                    with_payload_file w (make_payload now stamp cs)))
          \/ (f = NoFault
              /\ create_sync_payload f now stamp w
                 = (PayloadCreated (List.length cs) ("SYNC_" ++ stamp) now,
                    with_hr_db
                      (with_payload_file w (make_payload now stamp cs))
                      {| employees := employees db;
                         employee_change_log :=
                           mark_processed (map ch_log_id cs)
                             (employee_change_log db) |}))).
Proof.
  unfold create_sync_payload.
  destruct (hr_db w) as [db |] eqn:Hdb; [| left; eauto].
  destruct (collect_changes (select_unprocessed db)) as [e | cs] eqn:Hcs;
    [left; eauto |].
  destruct cs as [| c cs]; [right; left; reflexivity |].
  right; right. exists db, (c :: cs).
  split; [reflexivity |]. split; [exact Hcs |]. split; [discriminate |].
  destruct f.
  - right; right. split; reflexivity.
  - left. split; reflexivity.
  - right; left. split; [now left | reflexivity].
  - right; left. split; [now right | reflexivity].
Qed.

End ExtractorFacts.

(** *** C1 *)



(** *** C4 *)




(** *** C5 *)


(** The same state read through a store that keeps rowid order among equal
    timestamps: log id 1 comes first. *)
Example ties_in_rowid_order :
  map ch_log_id
    (written_changes
       (snd (create_sync_payload (store := rowid_asc_store) NoFault
               "2025-01-02T10:00:00" "20250102_100000" world_same_second)))
  = [1%Z; 2%Z].
Proof. reflexivity. Qed.

(** When the store keeps rowid order among equal timestamps, and the change
    log lies in ascending id order as AUTOINCREMENT fills it, the payload is
    in the specification's order. *)
Section RowidOrder.

Context {A : Type} (key : A -> string) (id : A -> Z).

Let key_then_id (a b : A) : Prop :=
  ts_le (key a) (key b) /\ (key a = key b -> (id a <= id b)%Z).

Lemma insert_keeps_rowid_order (x : A) (l : list A) :
  StronglySorted key_then_id l ->
  Forall (fun y => (id x <= id y)%Z) l ->
  StronglySorted key_then_id (insert_by String.leb key x l).
Proof.
  induction 1 as [| y l Hl IH Hy]; simpl; intro Hx.
  - repeat constructor.
  - inversion Hx as [| ? ? Hxy Hxl]; subst.
    destruct (String.leb (key x) (key y)) eqn:E.
    + constructor; [now constructor |].
      constructor; [split; [exact E | intros _; exact Hxy] |].
      apply Forall_forall. intros z Hz. split.
      * eapply ts_le_trans; [exact E |].
        rewrite Forall_forall in Hy. now apply Hy.
      * intros _. rewrite Forall_forall in Hxl. now apply Hxl.
    + constructor; [now apply IH |].
      eapply Permutation_Forall;
        [apply (insert_by_perm String.leb key) |].
      constructor; [| exact Hy].
      split; [now apply not_leb_ts_le |].
      intro K. rewrite K in E.
      pose proof (ts_le_refl (key x)) as R. unfold ts_le in R. congruence.
Qed.

Lemma sort_keeps_rowid_order (l : list A) :
  StronglySorted Z.le (map id l) ->
  StronglySorted key_then_id (sort_rowid_asc key l).
Proof.
  unfold sort_rowid_asc.
  induction l as [| x l IH]; simpl; intro H.
  - constructor.
  - inversion H as [| ? ? Hl Hx]; subst.
    apply insert_keeps_rowid_order; [now apply IH |].
    eapply Permutation_Forall; [apply (sort_by_perm String.leb key) |].
    rewrite Forall_map in Hx. exact Hx.
Qed.

End RowidOrder.

Lemma sorted_ids_filter_join (db : hr_database) (log : list change_log_row) :
  StronglySorted Z.le (map cl_id log) ->
  StronglySorted Z.le
    (map (fun row : change_log_row * option employee => cl_id (fst row))
       (filter (fun row => negb (cl_processed (fst row)))
          (map (left_join db) log))).
Proof.
  induction log as [| cl log IH]; simpl; intro H.
  - constructor.
  - inversion H as [| ? ? Hl Hcl]; subst.
    destruct (cl_processed cl); simpl; [now apply IH |].
    constructor; [now apply IH |].
    rewrite Forall_map in *. apply Forall_forall. intros row Hrow.
    apply filter_In in Hrow. destruct Hrow as [Hrow _].
    apply in_map_iff in Hrow. destruct Hrow as (cl' & <- & Hin).
    rewrite Forall_forall in Hcl. now apply Hcl.
Qed.

(** X8.  Through a store that keeps rowid order among equal timestamps, and
    with a change log in ascending id order, every payload is ordered by
    [change_timestamp] with ties broken by [log_id]. *)
Lemma rowid_order_store_breaks_ties_by_log_id (f : fault) (now stamp : string)
    (w w' : world) (db : hr_database) (n : nat) (id ts : string) :
  hr_db w = Some db ->
  StronglySorted Z.le (map cl_id (employee_change_log db)) ->
  create_sync_payload (store := rowid_asc_store) f now stamp w
  = (PayloadCreated n id ts, w') ->
  StronglySorted timestamp_then_log_id (written_changes w').
Proof.
  intros Hdb Hids Hrun.
  destruct (create_sync_payload_cases (store := rowid_asc_store) f now stamp w)
    as [[e He] | [Hnone | (db' & cs & Hdb' & Hcs & _ & Hrest)]];
    try (rewrite He in Hrun; discriminate);
    try (rewrite Hnone in Hrun; discriminate).
  destruct Hrest as [[_ He] | [[_ He] | [_ He]]];
    rewrite He in Hrun; try discriminate.
  inversion Hrun; subst. clear Hrun He.
  assert (db' = db) by congruence. subst db'.
  unfold written_changes. simpl.
  eapply collected_in_order; [| exact Hcs |].
  2: { unfold select_unprocessed. simpl order_by.
       apply (sort_keeps_rowid_order
                (fun row : change_log_row * option employee =>
                   cl_change_timestamp (fst row))
                (fun row => cl_id (fst row))).
       now apply sorted_ids_filter_join. }
  intros r1 r2 c1 c2 E1 E2 [Hts Hid].
  apply change_data_fields in E1. apply change_data_fields in E2.
  destruct E1 as [I1 T1], E2 as [I2 T2].
  unfold timestamp_then_log_id. rewrite I1, I2, T1, T2. now split.
Qed.



(** *** C10 *)

(** C10.  [detect_changes] is read-only: it leaves the employees table, the
    change log with every processed flag, the payload file and the payroll
    database as they are, and a second call right after it returns the same
    changes list and the same count. *)
Theorem detect_changes_read_only (store : OrderBy) (now1 now2 : string)
    (w : world) :
  snd (detect_changes now1 w) = w
  /\ snd (detect_changes now2 (snd (detect_changes now1 w))) = w
  /\ same_detection (fst (detect_changes now1 w))
       (fst (detect_changes now2 (snd (detect_changes now1 w))))
  /\ forall n cs ts,
      fst (detect_changes now1 w) = Detected n cs ts ->
      n = List.length cs
      /\ exists db,
          hr_db w = Some db
          /\ Permutation (map inr cs)
               (map (fun cl => change_data (left_join db cl))
                    (filter unprocessed (employee_change_log db))).
Proof.
  assert (Hsame : forall now, snd (detect_changes now w) = w).
  { intro now. unfold detect_changes.
    destruct (hr_db w) as [db |]; [| reflexivity].
    destruct (collect_changes (select_unprocessed db)); reflexivity. }
  split; [apply Hsame |].
  rewrite (Hsame now1). split; [apply Hsame |].
  unfold detect_changes.
  destruct (hr_db w) as [db |] eqn:Hdb.
  - destruct (collect_changes (select_unprocessed db)) as [e | cs] eqn:Hcs;
      simpl.
    + split; [reflexivity | discriminate].
    + split; [now split |].
      intros n cs' ts H. inversion H; subst.
      split; [reflexivity |]. exists db. split; [reflexivity |].
      exact (collected_exactly_unprocessed db cs' Hcs).
  - simpl. split; [reflexivity | discriminate].
Qed.

Lemma detect_changes_read_only_witness :
  2 = List.length detected_same_second
  /\ exists db,
      hr_db world_same_second = Some db
      /\ Permutation (map inr detected_same_second)
           (map (fun cl => change_data (left_join db cl))
                (filter unprocessed (employee_change_log db))).
Proof.
  exact (proj2 (proj2 (proj2
           (detect_changes_read_only rowid_asc_store "2025-01-02T10:00:00"
              "2025-01-02T10:00:05" world_same_second)))
           2 detected_same_second "2025-01-02T10:00:00" eq_refl).
Defined.

(** ** The batch applier *)

Lemma apply_changes_app clock sql_now pre rest :
  forall i t n res,
    apply_changes clock sql_now i (pre ++ rest) t n res
    = match apply_changes clock sql_now i pre t n res with
      | inl e => inl e
      | inr (t1, n1, res1) =>
          apply_changes clock sql_now (i + List.length pre) rest t1 n1 res1
      end.
Proof.
  induction pre as [| c pre IH]; simpl; intros i t n res.
  - now rewrite Nat.add_0_r.
  - destruct (apply_change (clock i) sql_now c t) as [e | r]; simpl;
      [reflexivity |].
    rewrite IH.
    replace (i + S (List.length pre)) with (S i + List.length pre) by lia.
    reflexivity.
Qed.

(** A batch that goes through counts every change. *)
Lemma apply_changes_count clock sql_now cs :
  forall i t n res t' n' res',
    apply_changes clock sql_now i cs t n res = inr (t', n', res') ->
    n' = n + List.length cs.
Proof.
  induction cs as [| c cs IH]; simpl; intros i t n res t' n' res' H.
  - inversion H. lia.
  - destruct (apply_change (clock i) sql_now c t) as [e | r]; simpl in H;
      [discriminate |].
    apply IH in H. lia.
Qed.

Lemma log_sync_entries sql_now cs :
  forall log,
    exists entries,
      fold_left (log_sync sql_now) cs log = (log ++ entries)%list
      /\ Forall2 completed_entry_for cs entries.
Proof.
  induction cs as [| c cs IH]; simpl; intro log.
  - exists []. split; [now rewrite app_nil_r | constructor].
  - destruct (IH (log_sync sql_now log c)) as (entries & E & F).
    eexists. split.
    + rewrite E. unfold log_sync. rewrite <- app_assoc. simpl. reflexivity.
    + constructor; [| exact F]. repeat split.
Qed.

(** The shape of every run of [process_sync_payload]. *)
Lemma process_sync_payload_cases clock sql_now w :
  (payload_file w = None
   /\ process_sync_payload clock sql_now w = (NoSyncPayloadFound, w))
  \/ (exists p e,
         payload_file w = Some p
         /\ apply_changes clock sql_now 0 (changes p)
              (payroll_employees (payroll_db w)) 0 [] = inl e
         /\ process_sync_payload clock sql_now w = (ProcessError e, w))
  \/ (exists p t' n res,
         payload_file w = Some p
         /\ apply_changes clock sql_now 0 (changes p)
              (payroll_employees (payroll_db w)) 0 [] = inr (t', n, res)
         /\ process_sync_payload clock sql_now w
            = (SyncCompleted n (source_system p) (sync_id (metadata p)) res,
               with_payload_file
                 (with_payroll_db w
                    {| payroll_employees := t';
                       sync_log := fold_left (log_sync sql_now) (changes p)
                                     (sync_log (payroll_db w)) |})
                 (mark_payload_processed (clock (List.length (changes p))) p))).
Proof.
  unfold process_sync_payload.
  destruct (payload_file w) as [p |]; [| left; auto].
  destruct (apply_changes clock sql_now 0 (changes p)
              (payroll_employees (payroll_db w)) 0 [])
    as [e | [[t' n] res]] eqn:E.
  - right; left. now exists p, e.
  - right; right. now exists p, t', n, res.
Qed.

(** A run that completes has counted every change and appended one
    'completed' row per change. *)
Lemma completed_run_log clock sql_now w n src id res :
  fst (process_sync_payload clock sql_now w) = SyncCompleted n src id res ->
  exists p entries,
    payload_file w = Some p
    /\ n = List.length (changes p)
    /\ sync_log (payroll_db (snd (process_sync_payload clock sql_now w)))
       = (sync_log (payroll_db w) ++ entries)%list
    /\ Forall2 completed_entry_for (changes p) entries.
Proof.
  intro H.
  destruct (process_sync_payload_cases clock sql_now w)
    as [[_ E] | [(p & e' & _ & _ & E) | (p & t' & n' & res' & Hp & Hrun & E)]];
    rewrite E in *; simpl in *; try discriminate.
  inversion H; subst. clear H.
  destruct (log_sync_entries sql_now (changes p) (sync_log (payroll_db w)))
    as (entries & Elog & F).
  exists p, entries. split; [exact Hp |].
  split; [apply (apply_changes_count _ _ _ _ _ _ _ _ _ _ Hrun) |].
  split; assumption.
Qed.

(** *** C2 *)




(** *** C3 *)

(** C3, as stated, fails: the applier has no processed-guard.  Run again on
    a payload whose status is already 'processed', it applies the change
    again, reports one processed change and appends a second audit row. *)
Lemma processed_payload_is_applied_again :
  let run := process_sync_payload tick "2025-01-03 09:30:00"
               world_applied_once in
  option_map (fun p => status (metadata p)) (payload_file world_applied_once)
  = Some "processed"
  /\ processed_count_of (fst run) = Some 1
  /\ List.length (sync_log (payroll_db world_applied_once)) = 1
  /\ List.length (sync_log (payroll_db (snd run))) = 2.
Proof. cbv zeta. repeat split. Qed.

(** C3, amended.  [process_sync_payload] never reads [metadata.status]: with
    any other metadata block the run reports the same count and leaves the
    same payroll database.  On a payload already marked 'processed' a run in
    which no change raises reports every change as processed and appends one
    new SyncLogEntry per change. *)
Theorem status_is_not_consulted (clock : nat -> string) (sql_now : string)
    (w : world) (p : sync_payload) :
  payload_file w = Some p ->
  (forall m,
      let run := process_sync_payload clock sql_now w in
      let run' := process_sync_payload clock sql_now
                    (with_payload_file w (with_metadata p m)) in
      processed_count_of (fst run') = processed_count_of (fst run)
      /\ payroll_db (snd run') = payroll_db (snd run))
  /\ (status (metadata p) = "processed" ->
      forall n src id res,
        fst (process_sync_payload clock sql_now w) = SyncCompleted n src id res ->
        n = List.length (changes p)
        /\ List.length
             (sync_log (payroll_db (snd (process_sync_payload clock sql_now w))))
           = List.length (sync_log (payroll_db w)) + List.length (changes p)).
Proof.
  intro Hp. split.
  - intro m. cbv zeta. unfold process_sync_payload. rewrite Hp. simpl.
    destruct (apply_changes clock sql_now 0 (changes p)
                (payroll_employees (payroll_db w)) 0 [])
      as [e | [[t' n] res]]; split; reflexivity.
  - intros _ n src id res H.
    destruct (completed_run_log clock sql_now w n src id res H)
      as (p' & entries & Hp' & Hn & Hlog & F).
    assert (p' = p) by congruence. subst p'.
    split; [exact Hn |].
    rewrite Hlog, length_app. f_equal.
    symmetry. eapply Forall2_length. exact F.
Qed.

Lemma status_is_not_consulted_witness :
  1 = List.length (changes payload_applied_once)
  /\ List.length
       (sync_log
          (payroll_db
             (snd (process_sync_payload tick "2025-01-03 09:30:00"
                     world_applied_once))))
     = List.length (sync_log (payroll_db world_applied_once))
       + List.length (changes payload_applied_once).
Proof.
  exact (proj2 (status_is_not_consulted tick "2025-01-03 09:30:00"
                  world_applied_once payload_applied_once eq_refl)
           eq_refl 1 "hr_system" "SYNC_20250102_100000"
           [Added "EMP008" "Alan Turing"] eq_refl).
Defined.

(** *** C6 *)

Lemma require_inr d k v : require d k = inr v -> getitem d k = Some v.
Proof.
  unfold require. destruct (getitem d k); [| discriminate].
  intro H. now inversion H.
Qed.

(** Open the next [require] of a successful run: the key is there. *)
Ltac open_require H :=
  repeat match type of H with
         | context [require ?d ?k] =>
             let E := fresh "E" in
             destruct (require d k) eqn:E; simpl in H; [discriminate |];
             apply require_inr in E
         end.

Lemma find_none_map_id {A : Type} (p : A -> bool) (g : A -> A) (l : list A) :
  find p l = None -> map (fun r => if p r then g r else r) l = l.
Proof.
  intro H. rewrite <- (map_id l) at 2. apply map_ext_in.
  intros r Hin. now rewrite (find_none p l H r Hin).
Qed.

Lemma find_after_replace (id email : value) (row : payroll_employee)
    (t : list payroll_employee) :
  pe_hit id row = true ->
  find (pe_hit id) (filter (fun r => negb (clashes id email r)) t ++ [row])
  = Some row.
Proof.
  intro Hrow. induction t as [| r t IH]; simpl.
  - now rewrite Hrow.
  - unfold clashes at 1. destruct (pe_hit id r) eqn:Hr; simpl.
    + exact IH.
    + destruct (sql_holds (sql_eq (pe_email r) email)); simpl.
      * exact IH.
      * now rewrite Hr.
Qed.

Lemma pe_hit_self (id : value) (r : payroll_employee) :
  pe_employee_id r = id -> is_null id = false -> pe_hit id r = true.
Proof.
  intros E H. unfold pe_hit. rewrite E.
  destruct id; simpl in *; try discriminate.
  - now rewrite Z.eqb_refl.
  - now rewrite String.eqb_refl.
Qed.




(** *** C8 *)

(** C8.  A DELETE change never fails and never removes a row: the table
    keeps its rows in place; the rows with the change's [employee_id] get
    [tax_status = 'inactive'] and the apply time as [last_sync_timestamp]
    and keep every other column, and every other row is untouched. *)
Theorem soft_delete_preserves_rows (now sql_now : string) (c : change)
    (t : list payroll_employee) :
  ch_change_type c = "DELETE" ->
  exists t',
    apply_change now sql_now c t = inr (t', [Deactivated (ch_employee_id c)])
    /\ map pe_employee_id t' = map pe_employee_id t
    /\ Forall2 (fun r r' =>
                  if pe_hit (VText (ch_employee_id c)) r
                  then deactivated_from now r r'
                  else r' = r) t t'.
Proof.
  intro Hty. unfold apply_change. rewrite Hty. simpl.
  eexists. split; [reflexivity |].
  unfold deactivate_payroll_employee. split.
  - rewrite map_map. apply map_ext. intro r.
    now destruct (pe_hit (VText (ch_employee_id c)) r).
  - induction t as [| r t IH]; simpl; constructor; [| exact IH].
    destruct (pe_hit (VText (ch_employee_id c)) r); [| reflexivity].
    unfold deactivated_from, set_inactive. simpl. repeat split.
Qed.

Lemma soft_delete_preserves_rows_witness :
  exists t',
    apply_change (tick 0) "2025-01-03 09:00:00" delete_emp002
      (payroll_employees payroll_seed)
    = inr (t', [Deactivated "EMP002"])
    /\ map pe_employee_id t' = map pe_employee_id (payroll_employees payroll_seed)
    /\ Forall2 (fun r r' =>
                  if pe_hit (VText "EMP002") r
                  then deactivated_from (tick 0) r r'
                  else r' = r) (payroll_employees payroll_seed) t'.
Proof.
  exact (soft_delete_preserves_rows (tick 0) "2025-01-03 09:00:00"
           delete_emp002 (payroll_employees payroll_seed) eq_refl).
Defined.

(** The seeded table after the DELETE of EMP002: three rows, the second one
    inactive. *)
Example soft_delete_emp002 :
  exists r1 r2 r3,
    apply_change (tick 0) "2025-01-03 09:00:00" delete_emp002
      (payroll_employees payroll_seed)
    = inr ([r1; r2; r3], [Deactivated "EMP002"])
    /\ map pe_tax_status [r1; r2; r3]
       = [VText "active"; VText "inactive"; VText "active"]
    /\ map pe_full_name [r1; r2; r3]
       = [VText "John Doe"; VText "Jane Smith"; VText "Bob Johnson"].
Proof. do 3 eexists. repeat split. Qed.

(** *** C9 *)

Lemma Forall2_In_l {A B : Type} (P : A -> B -> Prop) (l : list A)
    (l' : list B) (x : A) :
  Forall2 P l l' -> In x l -> exists y, In y l' /\ P x y.
Proof.
  induction 1 as [| a b l l' Hab _ IH]; simpl; intros Hin.
  - destruct Hin.
  - destruct Hin as [<- | Hin].
    + exists b. auto.
    + destruct (IH Hin) as (y & Hy & Hp). exists y. auto.
Qed.



(** ** The two scenarios of the specification, run end to end *)

(** Insert E1, extract, apply: one INSERT event with empty [old_values], a
    payload with one change and the event flagged, and a TargetRecord E1
    named "Ada Lovelace". *)
Example scenario_insert_extract_apply :
  let w0 := world_of hr_after_insert_e1 in
  let extract := create_sync_payload (store := rowid_asc_store) NoFault
                   "2025-01-02T10:00:00" "20250102_100000" w0 in
  let apply := process_sync_payload tick "2025-01-03 09:00:00" (snd extract) in
  option_map (fun db => map (fun cl => (cl_change_type cl, cl_old_values cl))
                          (employee_change_log db))
    hr_after_insert_e1
  = Some [("INSERT", Some (JsonObject []))]
  /\ fst extract = PayloadCreated 1 "SYNC_20250102_100000" "2025-01-02T10:00:00"
  /\ option_map total_changes (payload_file (snd extract)) = Some 1
  /\ option_map (fun db => map cl_processed (employee_change_log db))
       (hr_db (snd extract)) = Some [true]
  /\ fst apply = SyncCompleted 1 "hr_system" "SYNC_20250102_100000"
                   [Added "E1" "Ada Lovelace"]
  /\ option_map pe_full_name
       (lookup_payroll (VText "E1")
          (payroll_employees (payroll_db (snd apply))))
     = Some (VText "Ada Lovelace").
Proof. cbv zeta. repeat split. Qed.

(** Two updates of E1 before any extraction, salary then email: one call
    reports two changes and flags both. *)
Example scenario_two_updates_one_extraction :
  let after_updates :=
    match hr_after_insert_e1 with
    | Some db0 =>
        let db1 := {| employees := employees db0;
                      employee_change_log :=
                        mark_processed [1%Z] (employee_change_log db0) |} in
        match update_employee "2025-01-04 09:00:00" "E1"
                [("salary", VInt 95000)] db1 with
        | Some db2 =>
            update_employee "2025-01-04 09:05:00" "E1"
              [("email", VText "ada.lovelace@company.com")] db2
        | None => None
        end
    | None => None
    end in
  let extract := create_sync_payload (store := rowid_asc_store) NoFault
                   "2025-01-05T10:00:00" "20250105_100000"
                   (world_of after_updates) in
  changes_processed (fst extract) = Some 2
  /\ map ch_change_type (written_changes (snd extract)) = ["UPDATE"; "UPDATE"]
  /\ option_map (fun db => map cl_processed (employee_change_log db))
       (hr_db (snd extract)) = Some [true; true; true].
Proof. cbv zeta. repeat split. Qed.

(** * Further properties of the code *)

Open Scope list_scope.

(** ** The change recorder (scripts/init_hr_db.py, scripts/add_update_employee.py) *)

Lemma next_id_above (ids : list Z) : Forall (fun i => (i < next_id ids)%Z) ids.
Proof.
  unfold next_id. induction ids as [| i ids IH]; cbn [fold_right];
    constructor.
  - lia.
  - eapply Forall_impl; [| exact IH]. cbn beta. intros j Hj. lia.
Qed.

Lemma next_id_positive (ids : list Z) : (0 < next_id ids)%Z.
Proof.
  unfold next_id. induction ids as [| i ids IH]; cbn [fold_right]; lia.
Qed.

Lemma sorted_snoc (l : list Z) (x : Z) :
  StronglySorted Z.lt l -> Forall (fun i => (i < x)%Z) l ->
  StronglySorted Z.lt (l ++ [x])%list.
Proof.
  induction 1 as [| y l Hl IH Hy]; simpl; intro Hx.
  - repeat constructor.
  - inversion Hx; subst. constructor; [now apply IH |].
    apply Forall_app. split; [exact Hy | now repeat constructor].
Qed.

Lemma log_insert_ascending now log eid kind old new :
  ids_ascending (map cl_id log) ->
  ids_ascending (map cl_id (log_insert now log eid kind old new)).
Proof.
  unfold ids_ascending, log_insert. intro H.
  rewrite map_app. simpl.
  change (0%Z :: map cl_id log ++ [next_id (map cl_id log)])%list
    with ((0%Z :: map cl_id log) ++ [next_id (map cl_id log)])%list.
  apply sorted_snoc; [exact H |].
  constructor; [apply next_id_positive | apply next_id_above].
Qed.

Lemma update_trigger_ascending now OLD NEW log :
  ids_ascending (map cl_id log) ->
  ids_ascending (map cl_id (employee_update_trigger now OLD NEW log)).
Proof.
  unfold employee_update_trigger.
  destruct (sql_holds (employee_update_trigger_when OLD NEW));
    [apply log_insert_ascending | trivial].
Qed.

(** What the update loop of [sql_update_employees] does to the log. *)
Lemma update_fold_log now (f : employee -> employee) (hit : employee -> bool)
    (P : list change_log_row -> Prop) rows :
  (forall OLD log,
      hit OLD = true -> P log ->
      P (employee_update_trigger now OLD (f OLD) log)) ->
  forall log,
    P log ->
    P (fold_left (fun log r =>
                    if hit r then employee_update_trigger now r (f r) log
                    else log) rows log).
Proof.
  intro Hstep. induction rows as [| r rows IH]; simpl; intros log Hlog.
  - exact Hlog.
  - apply IH. destruct (hit r) eqn:E; [now apply Hstep | exact Hlog].
Qed.

Lemma sql_update_employees_inv now set eid db db' :
  sql_update_employees now set eid db = Some db' ->
  employees db'
  = map (fun r => if String.eqb (e_employee_id r) eid then assign set r else r)
        (employees db)
  /\ employee_change_log db'
     = fold_left (fun log r =>
                    if String.eqb (e_employee_id r) eid
                    then employee_update_trigger now r (assign set r) log
                    else log)
                 (employees db) (employee_change_log db).
Proof.
  unfold sql_update_employees.
  match goal with |- context [forallb ?g ?l] => destruct (forallb g l) end;
    [| discriminate].
  intro H. inversion H; subst. simpl. split; reflexivity.
Qed.

Lemma update_employee_inv now eid updates db db' :
  update_employee now eid updates db = Some db' ->
  db' = db
  \/ exists set, sql_update_employees now set eid db = Some db'.
Proof.
  unfold update_employee.
  destruct (existsb _ (employees db)); [| intro H; inversion H; auto].
  destruct (filter _ updates) as [| kv set] eqn:E.
  - intro H. inversion H. auto.
  - intro H. right. now exists (kv :: set).
Qed.

Lemma set_column_identity r kv : same_identity (set_column r kv) r.
Proof.
  destruct kv as [k v]. unfold set_column, same_identity.
  repeat match goal with
         | |- context [if ?b then _ else _] => destruct b
         end; simpl; auto.
Qed.

Lemma assign_identity set r : same_identity (assign set r) r.
Proof.
  unfold assign. revert r.
  induction set as [| kv set IH]; simpl; intro r.
  - repeat split.
  - destruct (IH (set_column r kv)) as (A & B & C).
    destruct (set_column_identity r kv) as (A' & B' & C').
    repeat split; congruence.
Qed.



(** X2.  A successful [update_employee] neither adds nor removes an employee
    row and never touches [employee_id], [created_at] or [updated_at]; rows
    of other employees are left exactly as they were. *)
Theorem update_employee_keeps_rows (now eid : string) (updates : jobject)
    (db db' : hr_database) :
  update_employee now eid updates db = Some db' ->
  Forall2 (fun r r' =>
             same_identity r' r /\ (e_employee_id r <> eid -> r' = r))
          (employees db) (employees db').
Proof.
  intro H.
  assert (Hrefl : forall l : list employee,
             Forall2 (fun r r' =>
                        same_identity r' r /\ (e_employee_id r <> eid -> r' = r))
                     l l).
  { induction l; constructor; auto. repeat split. }
  destruct (update_employee_inv _ _ _ _ _ H) as [-> | [set Hsql]];
    [apply Hrefl |].
  apply sql_update_employees_inv in Hsql. destruct Hsql as [-> _].
  induction (employees db) as [| r rows IH]; simpl; constructor; [| exact IH].
  destruct (String.eqb_spec (e_employee_id r) eid) as [E | E].
  - split; [apply assign_identity | intro N; contradiction].
  - split; [repeat split | reflexivity].
Qed.

Lemma update_employee_keeps_rows_witness :
  Forall2 (fun r r' =>
             same_identity r' r /\ (e_employee_id r <> "EMP006" -> r' = r))
          (employees hr_null_department) (employees hr_after_raise).
Proof.
  exact (update_employee_keeps_rows "2025-01-02 10:00:00" "EMP006"
           [("salary", VInt 95000); ("nickname", VText "Countess")]
           hr_null_department hr_after_raise eq_refl).
Defined.

Lemma real_update_event_step now eid OLD set log events :
  e_employee_id OLD = eid ->
  Forall (real_update_event eid) events ->
  exists events',
    employee_update_trigger now OLD (assign set OLD) (log ++ events)
    = (log ++ events')%list
    /\ Forall (real_update_event eid) events'
    /\ List.length events' <= S (List.length events).
Proof.
  intros Hid Hev. unfold employee_update_trigger.
  destruct (sql_holds (employee_update_trigger_when OLD (assign set OLD)))
    eqn:Hfire.
  - unfold log_insert. rewrite <- app_assoc. eexists.
    split; [reflexivity |]. split.
    + apply Forall_app. split; [exact Hev |]. constructor; [| constructor].
      destruct (assign_identity set OLD) as (Hsame & _).
      unfold real_update_event. simpl.
      split; [congruence |]. split; [reflexivity |]. split; [reflexivity |].
      exists OLD, (assign set OLD). split; [reflexivity |].
      split; [reflexivity |].
      (* a trigger that fires has seen a difference *)
      unfold employee_update_trigger_when in Hfire.
      rewrite !sql_or_true in Hfire.
      unfold tracked_differs, tracked_attributes. simpl values_differ.
      repeat (apply orb_true_iff in Hfire; destruct Hfire as [Hfire | Hfire]);
        apply sql_ne_true in Hfire; rewrite Hfire; simpl;
        rewrite ?orb_true_r; reflexivity.
    + rewrite length_app. simpl. lia.
  - exists events. split; [reflexivity |]. split; [exact Hev | lia].
Qed.

(** X3.  [update_employee] only appends to the change log, and every event
    it appends is an unprocessed UPDATE event of that employee whose old and
    new snapshots differ in a tracked attribute: an update that changes
    nothing is never logged.  At most one event is appended per row that
    carries the id. *)
Theorem update_employee_logs_only_real_changes (now eid : string)
    (updates : jobject) (db db' : hr_database) :
  update_employee now eid updates db = Some db' ->
  exists events,
    employee_change_log db' = (employee_change_log db ++ events)%list
    /\ Forall (real_update_event eid) events
    /\ List.length events
       <= List.length
            (filter (fun r => String.eqb (e_employee_id r) eid) (employees db)).
Proof.
  intro H.
  destruct (update_employee_inv _ _ _ _ _ H) as [-> | [set Hsql]].
  - exists []. rewrite app_nil_r. split; [reflexivity |].
    split; [constructor | simpl; lia].
  - apply sql_update_employees_inv in Hsql. destruct Hsql as [_ ->].
    generalize (employee_change_log db) as log. intro log.
    assert (G : forall rows events,
               Forall (real_update_event eid) events ->
               exists events',
                 fold_left
                   (fun log r =>
                      if String.eqb (e_employee_id r) eid
                      then employee_update_trigger now r (assign set r) log
                      else log) rows (log ++ events)
                 = (log ++ events')%list
                 /\ Forall (real_update_event eid) events'
                 /\ List.length events'
                    <= List.length events
                       + List.length
                           (filter (fun r => String.eqb (e_employee_id r) eid)
                              rows)).
    { induction rows as [| r rows IH]; simpl; intros events Hev.
      - exists events. split; [reflexivity |]. split; [exact Hev | lia].
      - destruct (String.eqb_spec (e_employee_id r) eid) as [E | E].
        + destruct (real_update_event_step now eid r set log events E Hev)
            as (ev1 & -> & Hev1 & Hlen1).
          destruct (IH ev1 Hev1) as (ev2 & -> & Hev2 & Hlen2).
          exists ev2. split; [reflexivity |]. split; [exact Hev2 |].
          simpl. lia.
        + destruct (IH events Hev) as (ev2 & -> & Hev2 & Hlen2).
          exists ev2. split; [reflexivity |]. split; [exact Hev2 | lia]. }
    destruct (G (employees db) [] (Forall_nil _)) as (events & E & Hev & Hlen).
    rewrite app_nil_r in E. exists events. split; [exact E |].
    split; [exact Hev | simpl in Hlen; lia].
Qed.

Lemma update_employee_logs_only_real_changes_witness :
  exists events,
    employee_change_log hr_after_raise
    = employee_change_log hr_null_department ++ events
    /\ Forall (real_update_event "EMP006") events
    /\ List.length events
       <= List.length
            (filter (fun r => String.eqb (e_employee_id r) "EMP006")
                    (employees hr_null_department)).
Proof.
  exact (update_employee_logs_only_real_changes "2025-01-02 10:00:00" "EMP006"
           [("salary", VInt 95000); ("nickname", VText "Countess")]
           hr_null_department hr_after_raise eq_refl).
Defined.



Lemma update_trigger_not_null_witness :
  sql_holds (employee_update_trigger_when john_doe john_doe_promoted)
  = tracked_differs john_doe john_doe_promoted.
Proof.
  exact (update_trigger_not_null john_doe john_doe_promoted eq_refl eq_refl).
Defined.

Lemma mark_processed_same_events log_ids log :
  Forall2 (fun a b => same_event a b
                      /\ (cl_processed a = true -> cl_processed b = true)
                      /\ (cl_processed b = true ->
                          cl_processed a = true \/ In (cl_id a) log_ids))
          log (mark_processed log_ids log).
Proof.
  unfold mark_processed.
  induction log as [| cl log IH]; simpl; constructor; [| exact IH].
  destruct (existsb (Z.eqb (cl_id cl)) log_ids) eqn:E; simpl.
  - split; [repeat split |]. split; [reflexivity |].
    intros _. right. apply existsb_exists in E.
    destruct E as (i & Hi & Heq). apply Z.eqb_eq in Heq. now subst.
  - split; [repeat split |]. split; auto.
Qed.

Lemma mark_processed_ids log_ids log :
  map cl_id (mark_processed log_ids log) = map cl_id log.
Proof.
  unfold mark_processed. rewrite map_map. apply map_ext.
  intro cl. now destruct (existsb (Z.eqb (cl_id cl)) log_ids).
Qed.

(** The HR database after any run of [create_sync_payload]. *)
Lemma create_sync_payload_hr_db {store : OrderBy} f now stamp w db :
  hr_db w = Some db ->
  hr_db (snd (create_sync_payload f now stamp w)) = Some db
  \/ exists cs,
      collect_changes (select_unprocessed db) = inr cs
      /\ fst (create_sync_payload f now stamp w)
         = PayloadCreated (List.length cs) ("SYNC_" ++ stamp)%string now
      /\ snd (create_sync_payload f now stamp w)
         = with_hr_db (with_payload_file w (make_payload now stamp cs))
             {| employees := employees db;
                employee_change_log :=
                  mark_processed (map ch_log_id cs) (employee_change_log db) |}.
Proof.
  intro Hdb.
  destruct (create_sync_payload_cases f now stamp w)
    as [[e He] | [Hnone | (db0 & cs & Hdb0 & Hcs & Hne & Hrest)]].
  - left. now rewrite He.
  - left. now rewrite Hnone.
  - assert (db0 = db) by congruence. subst db0.
    destruct Hrest as [[_ He] | [[_ He] | [_ He]]]; rewrite He; simpl.
    + now left.
    + now left.
    + right. now exists cs.
Qed.

(** X6.  The ids of the change log stay positive and ascending in table
    order through every operation that touches the HR database: the seed
    INSERT, [add_employee] and [update_employee] append rows with a fresh,
    larger id, and [create_sync_payload] keeps every id where it is. *)
Theorem change_log_ids_stay_ascending (db : hr_database) :
  ids_ascending (map cl_id (employee_change_log db)) ->
  (forall now eid fn ln em dp po sa st db',
      insert_employee now eid fn ln em dp po sa st db = Some db' ->
      ids_ascending (map cl_id (employee_change_log db')))
  /\ (forall now eid fn ln em dp po sa db',
         add_employee now eid fn ln em dp po sa db = Some db' ->
         ids_ascending (map cl_id (employee_change_log db')))
  /\ (forall now eid updates db',
         update_employee now eid updates db = Some db' ->
         ids_ascending (map cl_id (employee_change_log db')))
  /\ (forall (store : OrderBy) f now stamp w,
         hr_db w = Some db ->
         exists db',
           hr_db (snd (create_sync_payload f now stamp w)) = Some db'
           /\ ids_ascending (map cl_id (employee_change_log db'))).
Proof.
  intro Hasc. split; [| split; [| split]].
  - intros now eid fn ln em dp po sa st db' H. unfold insert_employee in H.
    match type of H with
    | (if ?b then _ else _) = _ => destruct b; [| discriminate]
    end.
    inversion H; subst. simpl. now apply log_insert_ascending.
  - intros now eid fn ln em dp po sa db' H. unfold add_employee in H.
    destruct (existsb _ (employees db)); [inversion H; now subst |].
    match type of H with
    | (if ?b then _ else _) = _ => destruct b; [| discriminate]
    end.
    inversion H; subst. simpl. now apply log_insert_ascending.
  - intros now eid updates db' H.
    destruct (update_employee_inv _ _ _ _ _ H) as [-> | [set Hsql]];
      [exact Hasc |].
    apply sql_update_employees_inv in Hsql. destruct Hsql as [_ ->].
    apply (update_fold_log now (assign set)
             (fun r => String.eqb (e_employee_id r) eid)
             (fun log => ids_ascending (map cl_id log)));
      [| exact Hasc].
    intros OLD log _. apply update_trigger_ascending.
  - intros store f now stamp w Hdb.
    destruct (create_sync_payload_hr_db f now stamp w db Hdb)
      as [E | (cs & _ & _ & E)]; rewrite E.
    + now exists db.
    + eexists. split; [reflexivity |]. simpl.
      now rewrite mark_processed_ids.
Qed.

Lemma change_log_ids_stay_ascending_witness :
  ids_ascending (map cl_id (employee_change_log hr_after_raise)).
Proof.
  refine (proj1 (proj2 (proj2 (change_log_ids_stay_ascending
                                 hr_null_department _)))
            "2025-01-02 10:00:00" "EMP006"
            [("salary", VInt 95000); ("nickname", VText "Countess")]
            hr_after_raise eq_refl).
  unfold ids_ascending. simpl. repeat constructor.
Defined.

(** X7.  Whatever happens during [create_sync_payload], the only thing it
    ever changes in the HR database is the processed flag, and only from
    false to true, and only on rows whose id is in the payload it has just
    written: the employees table is untouched, every change event keeps its
    place and content, and the payroll database is not touched. *)
Theorem create_sync_payload_only_flips_flags (store : OrderBy) (f : fault)
    (now stamp : string) (w : world) (db : hr_database) :
  hr_db w = Some db ->
  exists db',
    hr_db (snd (create_sync_payload f now stamp w)) = Some db'
    /\ employees db' = employees db
    /\ payroll_db (snd (create_sync_payload f now stamp w)) = payroll_db w
    /\ Forall2 (fun a b =>
                  same_event a b
                  /\ (cl_processed a = true -> cl_processed b = true)
                  /\ (cl_processed b = true ->
                      cl_processed a = true
                      \/ In (cl_id a)
                           (map ch_log_id
                              (written_changes
                                 (snd (create_sync_payload f now stamp w))))))
               (employee_change_log db) (employee_change_log db').
Proof.
  intro Hdb.
  assert (Hrefl : forall (ids : list Z) (l : list change_log_row),
             Forall2 (fun a b =>
                        same_event a b
                        /\ (cl_processed a = true -> cl_processed b = true)
                        /\ (cl_processed b = true ->
                            cl_processed a = true \/ In (cl_id a) ids)) l l).
  { induction l; constructor; auto. split; [repeat split | auto]. }
  destruct (create_sync_payload_hr_db f now stamp w db Hdb)
    as [E | (cs & _ & _ & E)].
  - exists db. split; [exact E |]. split; [reflexivity |]. split.
    + destruct (create_sync_payload_cases f now stamp w)
        as [[e He] | [Hnone | (db0 & cs & _ & _ & _ & Hrest)]].
      * now rewrite He.
      * now rewrite Hnone.
      * destruct Hrest as [[_ He] | [[_ He] | [_ He]]]; now rewrite He.
    + apply Hrefl.
  - rewrite E. eexists. split; [reflexivity |]. split; [reflexivity |].
    split; [reflexivity |]. simpl. unfold written_changes. simpl.
    apply mark_processed_same_events.
Qed.

Lemma create_sync_payload_only_flips_flags_witness :
  exists db',
    hr_db (snd (create_sync_payload (store := rowid_asc_store) NoFault
                  "2025-01-02T10:00:00" "20250102_100000" world_same_second))
    = Some db'
    /\ employees db' = employees hr_same_second
    /\ payroll_db
         (snd (create_sync_payload (store := rowid_asc_store) NoFault
                 "2025-01-02T10:00:00" "20250102_100000" world_same_second))
       = payroll_db world_same_second
    /\ Forall2 (fun a b =>
                  same_event a b
                  /\ (cl_processed a = true -> cl_processed b = true)
                  /\ (cl_processed b = true ->
                      cl_processed a = true
                      \/ In (cl_id a)
                           (map ch_log_id
                              (written_changes
                                 (snd (create_sync_payload
                                         (store := rowid_asc_store) NoFault
                                         "2025-01-02T10:00:00"
                                         "20250102_100000"
                                         world_same_second))))))
               (employee_change_log hr_same_second) (employee_change_log db').
Proof.
  exact (create_sync_payload_only_flips_flags rowid_asc_store NoFault
           "2025-01-02T10:00:00" "20250102_100000" world_same_second
           hr_same_second eq_refl).
Defined.

(** ** The batch extractor (hr_mcp_server.py) *)

Lemma rowid_order_store_breaks_ties_by_log_id_witness :
  StronglySorted timestamp_then_log_id
    (written_changes
       (snd (create_sync_payload (store := rowid_asc_store) NoFault
               "2025-01-02T10:00:00" "20250102_100000" world_same_second))).
Proof.
  refine (rowid_order_store_breaks_ties_by_log_id NoFault
            "2025-01-02T10:00:00" "20250102_100000" world_same_second _
            hr_same_second 2 "SYNC_20250102_100000" "2025-01-02T10:00:00"
            eq_refl _ eq_refl).
  simpl. repeat constructor; discriminate.
Defined.

(** X9.  [detect_changes] previews [create_sync_payload]: on the same state
    an error of the one is the same error of the other, an empty detection
    means nothing will be written, and otherwise the payload written holds
    exactly the detected changes, in the detected order, and
    [changes_processed] and [total_changes] are the detected count. *)
Theorem detect_changes_previews_payload (store : OrderBy) (now0 : string)
    (f : fault) (now stamp : string) (w : world) :
  match fst (detect_changes now0 w) with
  | DetectError e => create_sync_payload f now stamp w = (CreateError e, w)
  | Detected n cs _ =>
      n = List.length cs
      /\ (cs = [] ->
          create_sync_payload f now stamp w = (NoUnprocessedChanges, w))
      /\ (cs <> [] ->
          (is_error (fst (create_sync_payload f now stamp w)) = true
           /\ f <> NoFault)
          \/ (f = NoFault
              /\ changes_processed (fst (create_sync_payload f now stamp w))
                 = Some n
              /\ written_changes (snd (create_sync_payload f now stamp w)) = cs
              /\ option_map total_changes
                   (payload_file (snd (create_sync_payload f now stamp w)))
                 = Some n))
  end.
Proof.
  unfold detect_changes, create_sync_payload.
  destruct (hr_db w) as [db |]; [| reflexivity].
  destruct (collect_changes (select_unprocessed db)) as [e | cs];
    [reflexivity |].
  simpl. split; [reflexivity |]. split.
  - intros ->. reflexivity.
  - intro Hne. destruct cs as [| c cs]; [contradiction |].
    destruct f; simpl.
    + right. repeat split.
    + left. split; [reflexivity | discriminate].
    + left. split; [reflexivity | discriminate].
    + left. split; [reflexivity | discriminate].
Qed.

Lemma find_unique_id (e : employee) (rows : list employee) :
  NoDup (map e_employee_id rows) -> In e rows ->
  find (fun r => String.eqb (e_employee_id e) (e_employee_id r)) rows = Some e.
Proof.
  induction rows as [| r rows IH]; simpl; intros Hnd Hin; [destruct Hin |].
  inversion Hnd as [| ? ? Hnotin Hnd']; subst.
  destruct (String.eqb_spec (e_employee_id e) (e_employee_id r)) as [E | E].
  - destruct Hin as [-> | Hin]; [reflexivity |].
    exfalso. apply Hnotin. rewrite <- E. now apply in_map.
  - destruct Hin as [-> | Hin]; [contradiction |]. now apply IH.
Qed.

Lemma change_data_current db cl c :
  change_data (left_join db cl) = inr c ->
  ch_employee_id c = cl_employee_id cl
  /\ ch_current_employee_data c
     = current_employee_data
         (find (fun e => String.eqb (cl_employee_id cl) (e_employee_id e))
               (employees db)).
Proof.
  unfold left_join, change_data.
  destruct (loads_or_empty (cl_old_values cl)); [| discriminate].
  destruct (loads_or_empty (cl_new_values cl)); [| discriminate].
  intro H. inversion H; subst. simpl. split; reflexivity.
Qed.

(** Every collected change comes from an unprocessed row of the log. *)
Lemma collected_from_log {store : OrderBy} db cs c :
  collect_changes (select_unprocessed db) = inr cs ->
  In c cs ->
  exists cl,
    In cl (employee_change_log db) /\ cl_processed cl = false
    /\ change_data (left_join db cl) = inr c.
Proof.
  intros H Hin.
  pose proof (collected_exactly_unprocessed db cs H) as P.
  assert (Hc : In (inr c)
                 (map (fun cl => change_data (left_join db cl))
                      (filter unprocessed (employee_change_log db)))).
  { eapply Permutation_in; [exact P |]. now apply in_map. }
  apply in_map_iff in Hc. destruct Hc as (cl & Hcl & Hf).
  apply filter_In in Hf. destruct Hf as [Hin' Hu].
  exists cl. split; [exact Hin' |]. split; [| exact Hcl].
  unfold unprocessed in Hu. now apply negb_true_iff in Hu.
Qed.

(** X10.  The [current_employee_data] of a change is the employee's row as
    it is at extraction time, not as it was when the event was logged: all
    changes of one employee in a batch carry the same snapshot; it is the
    tracked attributes of the employee's row when there is one, and seven
    NULLs when the employee is not in the table. *)
Theorem payload_carries_current_employee_row (store : OrderBy)
    (db : hr_database) (cs : list change) :
  collect_changes (select_unprocessed db) = inr cs ->
  (forall c1 c2,
      In c1 cs -> In c2 cs -> ch_employee_id c1 = ch_employee_id c2 ->
      ch_current_employee_data c1 = ch_current_employee_data c2)
  /\ (forall c e,
         In c cs -> NoDup (map e_employee_id (employees db)) ->
         In e (employees db) -> e_employee_id e = ch_employee_id c ->
         ch_current_employee_data c = tracked_snapshot e)
  /\ (forall c,
         In c cs ->
         (forall e, In e (employees db) -> e_employee_id e <> ch_employee_id c) ->
         ch_current_employee_data c = current_employee_data None).
Proof.
  intro H. split; [| split].
  - intros c1 c2 H1 H2 Hid.
    destruct (collected_from_log db cs c1 H H1) as (cl1 & _ & _ & E1).
    destruct (collected_from_log db cs c2 H H2) as (cl2 & _ & _ & E2).
    apply change_data_current in E1. apply change_data_current in E2.
    destruct E1 as [I1 D1], E2 as [I2 D2].
    rewrite D1, D2. rewrite <- I1, <- I2, Hid. reflexivity.
  - intros c e Hc Hnd He Hid.
    destruct (collected_from_log db cs c H Hc) as (cl & _ & _ & E).
    apply change_data_current in E. destruct E as [I D].
    rewrite D, <- I, <- Hid. now rewrite find_unique_id.
  - intros c Hc Hnone.
    destruct (collected_from_log db cs c H Hc) as (cl & _ & _ & E).
    apply change_data_current in E. destruct E as [I D].
    rewrite D. f_equal.
    destruct (find _ (employees db)) as [e |] eqn:F; [| reflexivity].
    exfalso. apply find_some in F. destruct F as [Hin Heq].
    apply String.eqb_eq in Heq. apply (Hnone e Hin). congruence.
Qed.

Lemma payload_carries_current_employee_row_witness :
  (forall c1 c2,
      In c1 changes_after_raise -> In c2 changes_after_raise ->
      ch_employee_id c1 = ch_employee_id c2 ->
      ch_current_employee_data c1 = ch_current_employee_data c2)
  /\ (forall c e,
         In c changes_after_raise ->
         NoDup (map e_employee_id (employees hr_after_raise)) ->
         In e (employees hr_after_raise) ->
         e_employee_id e = ch_employee_id c ->
         ch_current_employee_data c = tracked_snapshot e)
  /\ (forall c,
         In c changes_after_raise ->
         (forall e, In e (employees hr_after_raise) ->
                    e_employee_id e <> ch_employee_id c) ->
         ch_current_employee_data c = current_employee_data None).
Proof.
  exact (payload_carries_current_employee_row rowid_asc_store hr_after_raise
           changes_after_raise eq_refl).
Defined.

(** Both events of EMP006 carry the salary after the raise. *)
Example current_data_after_raise :
  map (fun c => (ch_change_type c, getitem (ch_new_values c) "salary",
                 getitem (ch_current_employee_data c) "salary"))
      changes_after_raise
  = [ ("INSERT"%string, Some (VInt 90000), Some (VInt 95000));
      ("UPDATE"%string, Some (VInt 95000), Some (VInt 95000)) ].
Proof. reflexivity. Qed.

Lemma collect_changes_error rows e :
  collect_changes rows = inl e -> e = JSONDecodeError.
Proof.
  induction rows as [| row rows IH]; simpl; [discriminate |].
  destruct (change_data row) as [e' | c] eqn:Ec.
  - intro H. inversion H; subst. clear H.
    destruct row as [cl emp]. simpl in Ec.
    destruct (loads_or_empty (cl_old_values cl));
      [| now inversion Ec].
    destruct (loads_or_empty (cl_new_values cl)); now inversion Ec.
  - destruct (collect_changes rows) as [e' | cs]; [| discriminate].
    intro H. inversion H; subst. now apply IH.
Qed.

Lemma collect_changes_fails_iff rows :
  (exists e, collect_changes rows = inl e)
  <-> exists row e, In row rows /\ change_data row = inl e.
Proof.
  induction rows as [| row rows IH]; simpl.
  - split; [intros [e H]; discriminate | intros (r & e & [] & _)].
  - destruct (change_data row) as [e' | c] eqn:Ec.
    + split; [| eauto]. intros _. exists row, e'. auto.
    + destruct (collect_changes rows) as [e' | cs].
      * split; [| eauto]. intros _.
        destruct (proj1 IH (ex_intro _ e' eq_refl)) as (r & e & Hin & Hr).
        exists r, e. auto.
      * split; [intros [e H]; discriminate |].
        intros (r & e & [<- | Hin] & Hr); [congruence |].
        destruct (proj2 IH (ex_intro _ r (ex_intro _ e (conj Hin Hr))))
          as [e0 H0]. discriminate.
Qed.

Lemma change_data_fails_iff db cl :
  (exists e, change_data (left_join db cl) = inl e) <-> undecodable cl.
Proof.
  unfold left_join, change_data, undecodable.
  destruct (loads_or_empty (cl_old_values cl)).
  - destruct (loads_or_empty (cl_new_values cl)).
    + split; [intros [e H]; discriminate | intros [H | H]; discriminate].
    + split; eauto.
  - split; eauto.
Qed.

(** X11.  One unprocessed change event whose stored snapshot is not JSON
    blocks the extractor: both tools answer with the decode error and touch
    nothing, so the event is never flagged and every later call fails the
    same way.  Damaged events that are already processed are never read:
    the decode error occurs exactly when an unprocessed event is damaged. *)
Theorem undecodable_event_blocks_extraction (store : OrderBy) (w : world)
    (db : hr_database) :
  hr_db w = Some db ->
  ((exists cl, In cl (employee_change_log db) /\ cl_processed cl = false
               /\ undecodable cl)
   <-> exists e now, fst (detect_changes now w) = DetectError e)
  /\ ((exists cl, In cl (employee_change_log db) /\ cl_processed cl = false
                  /\ undecodable cl) ->
      forall f now stamp,
        detect_changes now w = (DetectError JSONDecodeError, w)
        /\ create_sync_payload f now stamp w = (CreateError JSONDecodeError, w)).
Proof.
  intro Hdb.
  assert (Hiff : (exists cl, In cl (employee_change_log db)
                             /\ cl_processed cl = false /\ undecodable cl)
                 <-> exists e, collect_changes (select_unprocessed db) = inl e).
  { rewrite collect_changes_fails_iff. split.
    - intros (cl & Hin & Hp & Hbad).
      apply (change_data_fails_iff db) in Hbad. destruct Hbad as [e He].
      exists (left_join db cl), e. split; [| exact He].
      eapply Permutation_in; [symmetry; apply select_unprocessed_perm |].
      apply in_map, filter_In. split; [exact Hin |].
      unfold unprocessed. now rewrite Hp.
    - intros (row & e & Hin & He).
      eapply Permutation_in in Hin; [| apply select_unprocessed_perm].
      apply in_map_iff in Hin. destruct Hin as (cl & <- & Hf).
      apply filter_In in Hf. destruct Hf as [Hin Hu].
      exists cl. split; [exact Hin |]. split.
      + unfold unprocessed in Hu. now apply negb_true_iff in Hu.
      + apply (change_data_fails_iff db). eauto. }
  split.
  - rewrite Hiff. unfold detect_changes. rewrite Hdb.
    destruct (collect_changes (select_unprocessed db)) as [e | cs]; simpl.
    + split; [intros _; exists e, ""%string; reflexivity | eauto].
    + split; [intros [e H]; discriminate | intros (e & now & H); discriminate].
  - intros Hbad f now stamp. apply Hiff in Hbad. destruct Hbad as [e He].
    pose proof (collect_changes_error _ _ He) as ->.
    unfold detect_changes, create_sync_payload. rewrite Hdb, He. split; reflexivity.
Qed.

Lemma undecodable_event_blocks_extraction_witness :
  detect_changes (store := rowid_desc_store) "2025-01-02T10:00:00" world_damaged
  = (DetectError JSONDecodeError, world_damaged)
  /\ create_sync_payload (store := rowid_desc_store) NoFault
       "2025-01-02T10:00:00" "20250102_100000" world_damaged
     = (CreateError JSONDecodeError, world_damaged).
Proof.
  refine (proj2 (undecodable_event_blocks_extraction rowid_desc_store
                   world_damaged hr_damaged eq_refl) _ NoFault
            "2025-01-02T10:00:00" "20250102_100000").
  eexists. split; [right; left; reflexivity |].
  split; [reflexivity | right; reflexivity].
Defined.

Lemma unique_by_id (a b : change_log_row) (log : list change_log_row) :
  NoDup (map cl_id log) -> In a log -> In b log -> cl_id a = cl_id b -> a = b.
Proof.
  induction log as [| x log IH]; simpl; intros Hnd Ha Hb E; [destruct Ha |].
  inversion Hnd as [| ? ? Hnotin Hnd']; subst.
  destruct Ha as [-> | Ha], Hb as [-> | Hb]; auto.
  - exfalso. apply Hnotin. rewrite E. now apply in_map.
  - exfalso. apply Hnotin. rewrite <- E. now apply in_map.
Qed.

(** X12.  The payload file is a queue of depth one.  A new extraction
    replaces the file whatever its status, also a payload that was never
    applied; the events of the replaced payload are flagged processed and
    are in no later payload, so they can no longer reach the payroll. *)
Theorem extraction_overwrites_pending_payload (store : OrderBy) (f : fault)
    (now stamp : string) (w w' : world) (db : hr_database) (p : sync_payload)
    (n : nat) (id ts : string) :
  hr_db w = Some db ->
  payload_file w = Some p ->
  NoDup (map cl_id (employee_change_log db)) ->
  (forall c, In c (changes p) ->
             exists cl, In cl (employee_change_log db)
                        /\ cl_id cl = ch_log_id c /\ cl_processed cl = true) ->
  create_sync_payload f now stamp w = (PayloadCreated n id ts, w') ->
  exists p',
    payload_file w' = Some p'
    /\ status (metadata p') = "ready_for_sync"%string
    /\ n = List.length (changes p')
    /\ 0 < n
    /\ forall c, In c (changes p) ->
                 ~ In (ch_log_id c) (map ch_log_id (changes p')).
Proof.
  intros Hdb Hp Hnd Hflagged Hrun.
  destruct (create_sync_payload_cases f now stamp w)
    as [[e He] | [Hnone | (db0 & cs & Hdb0 & Hcs & Hne & Hrest)]];
    try (rewrite He in Hrun; discriminate);
    try (rewrite Hnone in Hrun; discriminate).
  destruct Hrest as [[_ He] | [[_ He] | [_ He]]];
    rewrite He in Hrun; try discriminate.
  inversion Hrun; subst. clear Hrun He.
  assert (db0 = db) by congruence. subst db0.
  eexists. split; [reflexivity |]. split; [reflexivity |].
  split; [reflexivity |]. split.
  - destruct cs; [contradiction | simpl; lia].
  - intros c Hc Hin. simpl in Hin.
    destruct (Hflagged c Hc) as (cl & Hcl & Hid & Hproc).
    eapply Permutation_in in Hin; [| apply (collected_log_ids db cs Hcs)].
    apply in_map_iff in Hin. destruct Hin as (cl' & Hid' & Hf).
    apply filter_In in Hf. destruct Hf as [Hcl' Hu].
    assert (cl' = cl) by (apply (unique_by_id _ _ _ Hnd Hcl' Hcl); congruence).
    subst cl'. unfold unprocessed in Hu. rewrite Hproc in Hu. discriminate.
Qed.

Lemma extraction_overwrites_pending_payload_witness :
  exists p',
    payload_file
      (snd (create_sync_payload (store := rowid_asc_store) NoFault
              "2025-01-02T11:00:00" "20250102_110000"
              world_pending_then_raise)) = Some p'
    /\ status (metadata p') = "ready_for_sync"%string
    /\ 1 = List.length (changes p')
    /\ 0 < 1
    /\ forall c, In c (changes pending_payload) ->
                 ~ In (ch_log_id c) (map ch_log_id (changes p')).
Proof.
  refine (extraction_overwrites_pending_payload rowid_asc_store NoFault
            "2025-01-02T11:00:00" "20250102_110000" world_pending_then_raise
            _ hr_after_first_extraction pending_payload 1
            "SYNC_20250102_110000" "2025-01-02T11:00:00"
            eq_refl eq_refl _ _ eq_refl).
  - simpl. repeat constructor; simpl; intuition discriminate.
  - intros c [<- | []]. eexists. split; [left; reflexivity |].
    split; reflexivity.
Defined.

(** ** The batch applier (payroll_agent.py) *)

Lemma filter_twice {A : Type} (p : A -> bool) (l : list A) :
  filter p (filter p l) = filter p l.
Proof.
  induction l as [| x l IH]; simpl; [reflexivity |].
  destruct (p x) eqn:E; simpl; [rewrite E; f_equal |]; exact IH.
Qed.

Lemma sql_eq_self (v : value) :
  is_null v = false -> sql_holds (sql_eq v v) = true.
Proof.
  destruct v; simpl; try discriminate; intros _.
  - now rewrite Z.eqb_refl.
  - now rewrite String.eqb_refl.
Qed.

Lemma insert_or_replace_twice sql_now id full_name email dept pos sal st ts t t1 :
  insert_or_replace sql_now id full_name email dept pos sal st ts t = inr t1 ->
  insert_or_replace sql_now id full_name email dept pos sal st ts t1 = inr t1.
Proof.
  unfold insert_or_replace.
  destruct (is_null full_name || is_null email) eqn:Hnull; [discriminate |].
  intro H. inversion H; subst. clear H.
  apply orb_false_iff in Hnull. destruct Hnull as [_ Hemail].
  rewrite filter_app, filter_twice. simpl.
  unfold clashes at 2. simpl. rewrite (sql_eq_self email Hemail).
  rewrite orb_true_r. simpl. now rewrite app_nil_r.
Qed.

Lemma map_if_twice {A : Type} (hit : A -> bool) (g : A -> A) (l : list A) :
  (forall r, hit (g r) = hit r) -> (forall r, g (g r) = g r) ->
  map (fun r => if hit r then g r else r)
      (map (fun r => if hit r then g r else r) l)
  = map (fun r => if hit r then g r else r) l.
Proof.
  intros Hhit Hg. rewrite map_map. apply map_ext. intro r.
  destruct (hit r) eqn:E; [rewrite Hhit, E; apply Hg | now rewrite E].
Qed.

Lemma update_payroll_employee_twice fn em dp po sa st ts eid t t1 :
  update_payroll_employee fn em dp po sa st ts eid t = inr t1 ->
  update_payroll_employee fn em dp po sa st ts eid t1 = inr t1.
Proof.
  unfold update_payroll_employee.
  match goal with
  | |- context [forallb ?g ?l] => destruct (forallb g l) eqn:Hok
  end; [| discriminate].
  intro H. inversion H; subst. clear H.
  rewrite (map_if_twice (pe_hit (VText eid))
             (set_synced_columns fn em dp po sa st ts)) by reflexivity.
  now rewrite Hok.
Qed.

Lemma deactivate_twice ts eid t :
  deactivate_payroll_employee ts eid (deactivate_payroll_employee ts eid t)
  = deactivate_payroll_employee ts eid t.
Proof.
  unfold deactivate_payroll_employee.
  now apply (map_if_twice (pe_hit (VText eid)) (set_inactive ts)).
Qed.

Lemma require_some d k v : getitem d k = Some v -> require d k = inr v.
Proof. unfold require. now intros ->. Qed.

(** X13.  Every single change is idempotent at a fixed clock reading: when
    a change has been applied, applying the same change again right away
    succeeds and leaves the table exactly as the first application left it
    (the INSERT branch deletes and re-inserts the same row, the UPDATE and
    DELETE branches rewrite the same columns with the same values). *)
Theorem apply_change_idempotent (now sql_now : string) (c : change)
    (t t1 : list payroll_employee) (lines : list result_line) :
  apply_change now sql_now c t = inr (t1, lines) ->
  apply_change now sql_now c t1 = inr (t1, lines).
Proof.
  unfold apply_change.
  destruct (String.eqb (ch_change_type c) "INSERT").
  { intro H. open_require H.
    repeat match goal with
           | E : getitem _ _ = Some _ |- _ =>
               rewrite (require_some _ _ _ E); clear E
           end.
    simpl in *.
    match type of H with
    | context [insert_or_replace ?a ?b ?c ?d ?e ?f ?g ?h ?i ?t] =>
        destruct (insert_or_replace a b c d e f g h i t) as [err | t']
          eqn:Hfirst; [discriminate |]
    end.
    simpl in H. inversion H; subst. clear H.
    now rewrite (insert_or_replace_twice _ _ _ _ _ _ _ _ _ _ _ Hfirst). }
  destruct (String.eqb (ch_change_type c) "UPDATE").
  { intro H. open_require H.
    repeat match goal with
           | E : getitem _ _ = Some _ |- _ =>
               rewrite (require_some _ _ _ E); clear E
           end.
    simpl in *.
    match type of H with
    | context [update_payroll_employee ?a ?b ?c ?d ?e ?f ?g ?h ?t] =>
        destruct (update_payroll_employee a b c d e f g h t) as [err | t']
          eqn:Hfirst; [discriminate |]
    end.
    simpl in H. inversion H; subst. clear H.
    now rewrite (update_payroll_employee_twice _ _ _ _ _ _ _ _ _ _ Hfirst). }
  destruct (String.eqb (ch_change_type c) "DELETE").
  { intro H. inversion H; subst. now rewrite deactivate_twice. }
  intro H. inversion H; subst. reflexivity.
Qed.

Lemma apply_change_idempotent_witness :
  apply_change (tick 0) "2025-01-03 09:00:00" insert_emp008
    (payroll_employees (payroll_db world_applied_once))
  = inr (payroll_employees (payroll_db world_applied_once),
         [Added "EMP008" "Alan Turing"]).
Proof.
  exact (apply_change_idempotent (tick 0) "2025-01-03 09:00:00" insert_emp008
           (payroll_employees payroll_seed) _ _ eq_refl).
Defined.

(** *** The constraints of [payroll_employees] survive every change *)

Section UniqueKey.

Variable k : payroll_employee -> value.

Lemma sql_eq_sym (a b : value) : sql_eq a b = sql_eq b a.
Proof.
  destruct a as [|x|x], b as [|y|y]; simpl; try reflexivity.
  - now rewrite Z.eqb_sym.
  - now rewrite String.eqb_sym.
Qed.

Lemma sql_eq_true (a b : value) : sql_holds (sql_eq a b) = true -> a = b.
Proof.
  destruct a as [|x|x], b as [|y|y]; simpl; try discriminate.
  - destruct (Z.eqb_spec x y); [congruence | discriminate].
  - destruct (String.eqb_spec x y); [congruence | discriminate].
Qed.

Lemma key_count_cons (v : value) r t :
  key_count k v (r :: t) = (if key_has k v r then 1 else 0) + key_count k v t.
Proof.
  unfold key_count. cbn [filter]. now destruct (key_has k v r).
Qed.

Lemma key_count_filter_le (v : value) (keep : payroll_employee -> bool) t :
  key_count k v (filter keep t) <= key_count k v t.
Proof.
  induction t as [| r t IH]; cbn [filter]; [lia |].
  rewrite key_count_cons.
  destruct (keep r); [rewrite key_count_cons |]; lia.
Qed.

Lemma key_count_none (v : value) t :
  (forall r, In r t -> key_has k v r = false) -> key_count k v t = 0.
Proof.
  induction t as [| r t IH]; intro H; [reflexivity |].
  rewrite key_count_cons, (H r (or_introl eq_refl)), IH; [reflexivity |].
  intros r' Hr'. apply H. now right.
Qed.

Lemma key_count_snoc (v : value) t (new : payroll_employee) :
  key_count k v (t ++ [new])
  = key_count k v t + (if key_has k v new then 1 else 0).
Proof.
  induction t as [| r t IH]; cbn [app].
  - rewrite key_count_cons. unfold key_count. simpl. lia.
  - rewrite !key_count_cons, IH. lia.
Qed.

Lemma unique_after_replace (keep : payroll_employee -> bool)
    (new : payroll_employee) t :
  (forall r, keep r = true -> key_has k (k new) r = false) ->
  key_unique k t -> key_unique k (filter keep t ++ [new]).
Proof.
  intros Hkeep Hu. unfold key_unique in *. apply Forall_app. split.
  - apply Forall_forall. intros r Hr. apply filter_In in Hr.
    destruct Hr as [Hin Hk]. rewrite key_count_snoc.
    rewrite Forall_forall in Hu. specialize (Hu r Hin).
    pose proof (key_count_filter_le (k r) keep t) as Hle.
    assert (Hnew : key_has k (k r) new = false).
    { specialize (Hkeep r Hk). unfold key_has in *.
      now rewrite sql_eq_sym. }
    rewrite Hnew. lia.
  - constructor; [| constructor]. rewrite key_count_snoc.
    rewrite key_count_none.
    + destruct (key_has k (k new) new); lia.
    + intros r Hr. apply filter_In in Hr. destruct Hr as [_ Hk].
      now apply Hkeep.
Qed.

Lemma key_count_map_same (g : payroll_employee -> payroll_employee)
    (v : value) t :
  (forall r, k (g r) = k r) -> key_count k v (map g t) = key_count k v t.
Proof.
  intro Hg. induction t as [| r t IH]; cbn [map]; [reflexivity |].
  rewrite !key_count_cons, IH. unfold key_has. now rewrite Hg.
Qed.

Lemma unique_after_map_same (g : payroll_employee -> payroll_employee) t :
  (forall r, k (g r) = k r) -> key_unique k t -> key_unique k (map g t).
Proof.
  intros Hg Hu. unfold key_unique in *. apply Forall_map.
  eapply Forall_impl; [| exact Hu]. cbn beta. intros r Hr.
  now rewrite Hg, key_count_map_same.
Qed.

(** Rows rewritten to a key that is not [v] do not add to the count of
    [v]. *)
Lemma key_count_map_le (hit : payroll_employee -> bool)
    (g : payroll_employee -> payroll_employee) (v : value) t :
  (forall r, hit r = true -> key_has k v (g r) = false) ->
  key_count k v (map (fun r => if hit r then g r else r) t) <= key_count k v t.
Proof.
  intro Hg. induction t as [| r t IH]; cbn [map]; [lia |].
  rewrite !key_count_cons.
  destruct (hit r) eqn:E; [rewrite (Hg r E) |]; lia.
Qed.

End UniqueKey.

Lemma insert_or_replace_schema sql_now id fn em dp po sa st ts t t' :
  payroll_schema_ok t ->
  insert_or_replace sql_now id fn em dp po sa st ts t = inr t' ->
  payroll_schema_ok t'.
Proof.
  intros (Hnn & Hid & Hem). unfold insert_or_replace.
  destruct (is_null fn || is_null em) eqn:Hnull; [discriminate |].
  apply orb_false_iff in Hnull. destruct Hnull as [Hfn Hemail].
  intro H. inversion H; subst. clear H. split; [| split].
  - apply Forall_app. split.
    + apply Forall_forall. intros r Hr. apply filter_In in Hr.
      rewrite Forall_forall in Hnn. now apply Hnn.
    + constructor; [now split | constructor].
  - apply (unique_after_replace pe_employee_id); [| exact Hid].
    intros r Hr. apply negb_true_iff, orb_false_iff in Hr. exact (proj1 Hr).
  - apply (unique_after_replace pe_email); [| exact Hem].
    intros r Hr. apply negb_true_iff, orb_false_iff in Hr. exact (proj2 Hr).
Qed.

Lemma update_payroll_employee_schema fn em dp po sa st ts eid t t' :
  payroll_schema_ok t ->
  update_payroll_employee fn em dp po sa st ts eid t = inr t' ->
  payroll_schema_ok t'.
Proof.
  intros (Hnn & Hid & Hem). unfold update_payroll_employee.
  set (hit := pe_hit (VText eid)).
  set (g := set_synced_columns fn em dp po sa st ts).
  set (t1 := map (fun r => if hit r then g r else r) t).
  match goal with
  | |- context [forallb ?ok t1] => destruct (forallb ok t1) eqn:Hok
  end; [| discriminate].
  intro H. inversion H; subst t'. clear H.
  rewrite forallb_forall in Hok.
  assert (Hhit : forall r, In r t -> hit r = true ->
                 is_null fn = false /\ is_null em = false
                 /\ key_count pe_email em t1 <= 1).
  { intros r Hr Hh.
    assert (Hin : In (g r) t1).
    { unfold t1. apply in_map_iff. exists r. now rewrite Hh. }
    specialize (Hok (g r) Hin). cbv beta in Hok.
    change (hit (g r)) with (hit r) in Hok.
    rewrite Hh in Hok. cbn [negb orb] in Hok.
    apply andb_true_iff in Hok. destruct Hok as [Hok Hcount].
    apply andb_true_iff in Hok. destruct Hok as [Hf He].
    apply negb_true_iff in Hf, He. apply Nat.leb_le in Hcount.
    repeat split; assumption. }
  split; [| split].
  - unfold t1. apply Forall_map. apply Forall_forall. intros r Hr.
    destruct (hit r) eqn:Hh.
    + destruct (Hhit r Hr Hh) as (Hf & He & _). now split.
    + rewrite Forall_forall in Hnn. now apply Hnn.
  - unfold t1. apply unique_after_map_same; [| exact Hid].
    intro r. now destruct (hit r).
  - unfold key_unique. unfold t1 at 2. apply Forall_map.
    apply Forall_forall. intros r Hr.
    destruct (hit r) eqn:Hh.
    + destruct (Hhit r Hr Hh) as (_ & _ & Hc). exact Hc.
    + destruct (sql_holds (sql_eq em (pe_email r))) eqn:Hsame.
      * (* the unchanged row holds the new email: is a row rewritten? *)
        destruct (existsb hit t) eqn:Hany.
        -- apply existsb_exists in Hany. destruct Hany as (r0 & Hr0 & Hh0).
           destruct (Hhit r0 Hr0 Hh0) as (_ & _ & Hc).
           apply sql_eq_true in Hsame. now rewrite <- Hsame.
        -- assert (E : t1 = t).
           { unfold t1. rewrite <- (map_id t) at 2. apply map_ext_in.
             intros r0 Hr0. destruct (hit r0) eqn:Hh0; [| reflexivity].
             exfalso.
             assert (existsb hit t = true)
               by (apply existsb_exists; now exists r0).
             congruence. }
           rewrite E. unfold key_unique in Hem.
           rewrite Forall_forall in Hem. now apply Hem.
      * etransitivity;
          [apply (key_count_map_le pe_email hit g (pe_email r)) |].
        -- intros r0 _. exact Hsame.
        -- unfold key_unique in Hem. rewrite Forall_forall in Hem.
           now apply Hem.
Qed.

Lemma deactivate_schema ts eid t :
  payroll_schema_ok t ->
  payroll_schema_ok (deactivate_payroll_employee ts eid t).
Proof.
  intros (Hnn & Hid & Hem). unfold deactivate_payroll_employee.
  split; [| split].
  - apply Forall_map. eapply Forall_impl; [| exact Hnn].
    intros r Hr. now destruct (pe_hit (VText eid) r).
  - apply unique_after_map_same; [| exact Hid].
    intro r. now destruct (pe_hit (VText eid) r).
  - apply unique_after_map_same; [| exact Hem].
    intro r. now destruct (pe_hit (VText eid) r).
Qed.

Lemma apply_change_schema now sql_now c t t' lines :
  payroll_schema_ok t ->
  apply_change now sql_now c t = inr (t', lines) ->
  payroll_schema_ok t'.
Proof.
  intro Hok. unfold apply_change.
  destruct (String.eqb (ch_change_type c) "INSERT").
  { intro H. open_require H. simpl in H.
    match type of H with
    | context [insert_or_replace ?a ?b ?c ?d ?e ?f ?g ?h ?i ?t] =>
        destruct (insert_or_replace a b c d e f g h i t) as [err | t1]
          eqn:Hfirst; [discriminate |]
    end.
    simpl in H. inversion H; subst.
    eapply insert_or_replace_schema; eassumption. }
  destruct (String.eqb (ch_change_type c) "UPDATE").
  { intro H. open_require H. simpl in H.
    match type of H with
    | context [update_payroll_employee ?a ?b ?c ?d ?e ?f ?g ?h ?t] =>
        destruct (update_payroll_employee a b c d e f g h t) as [err | t1]
          eqn:Hfirst; [discriminate |]
    end.
    simpl in H. inversion H; subst.
    eapply update_payroll_employee_schema; eassumption. }
  destruct (String.eqb (ch_change_type c) "DELETE").
  { intro H. inversion H; subst. now apply deactivate_schema. }
  intro H. inversion H; subst. exact Hok.
Qed.

Lemma apply_changes_schema clock sql_now cs :
  forall i t n res t' n' res',
    payroll_schema_ok t ->
    apply_changes clock sql_now i cs t n res = inr (t', n', res') ->
    payroll_schema_ok t'.
Proof.
  induction cs as [| c cs IH]; simpl; intros i t n res t' n' res' Hok H.
  - inversion H; now subst.
  - destruct (apply_change (clock i) sql_now c t) as [e | [t1 l]] eqn:E;
      simpl in H; [discriminate |].
    eapply IH; [| exact H].
    eapply apply_change_schema; eassumption.
Qed.

(** X14.  The applier keeps the constraints of [payroll_employees]: when
    the table has no NULL [full_name] or [email], no two rows with the same
    [employee_id] and no two rows with the same [email] before
    [process_sync_payload], it has none after it, whatever the payload holds
    and however the run ends. *)
Theorem process_sync_payload_keeps_constraints (clock : nat -> string)
    (sql_now : string) (w : world) :
  payroll_schema_ok (payroll_employees (payroll_db w)) ->
  payroll_schema_ok
    (payroll_employees
       (payroll_db (snd (process_sync_payload clock sql_now w)))).
Proof.
  intro Hok.
  destruct (process_sync_payload_cases clock sql_now w)
    as [[_ E] | [(p & e & _ & _ & E) | (p & t' & n & res & _ & Hrun & E)]];
    rewrite E; simpl; try exact Hok.
  eapply apply_changes_schema; eassumption.
Qed.

Lemma process_sync_payload_keeps_constraints_witness :
  payroll_schema_ok
    (payroll_employees
       (payroll_db
          (snd (process_sync_payload tick "2025-01-03 09:00:00"
                  world_mixed_batch)))).
Proof.
  apply (process_sync_payload_keeps_constraints tick "2025-01-03 09:00:00"
           world_mixed_batch).
  split; [| split]; repeat constructor.
Defined.

Lemma update_change_effect now sql_now c t t' lines :
  ch_change_type c = "UPDATE"%string ->
  apply_change now sql_now c t = inr (t', lines) ->
  update_effect now c t t'.
Proof.
  intros Hty H. unfold apply_change in H. rewrite Hty in H. simpl in H.
  open_require H. unfold update_payroll_employee in H.
  match type of H with
  | context [forallb ?g ?l] => destruct (forallb g l); [| discriminate]
  end.
  simpl in H. inversion H; subst. clear H.
  unfold update_effect. do 7 eexists.
  repeat (split; [eassumption |]).
  split; [reflexivity |].
  intro Hnone. now apply find_none_map_id.
Qed.



Lemma apply_change_lines now sql_now c t t' lines :
  apply_change now sql_now c t = inr (t', lines) ->
  map line_tag lines
  = if known_change_type c then [(ch_change_type c, ch_employee_id c)] else [].
Proof.
  unfold apply_change, known_change_type.
  destruct (String.eqb_spec (ch_change_type c) "INSERT") as [Ei | Ei].
  { intro H. open_require H. simpl in H.
    match type of H with
    | context [insert_or_replace ?a ?b ?c ?d ?e ?f ?g ?h ?i ?t] =>
        destruct (insert_or_replace a b c d e f g h i t); [discriminate |]
    end.
    simpl in H. inversion H; subst. simpl. now rewrite Ei. }
  destruct (String.eqb_spec (ch_change_type c) "UPDATE") as [Eu | Eu].
  { intro H. open_require H. simpl in H.
    match type of H with
    | context [update_payroll_employee ?a ?b ?c ?d ?e ?f ?g ?h ?t] =>
        destruct (update_payroll_employee a b c d e f g h t); [discriminate |]
    end.
    simpl in H. inversion H; subst. simpl. now rewrite Eu. }
  destruct (String.eqb_spec (ch_change_type c) "DELETE") as [Ed | Ed].
  { intro H. inversion H; subst. simpl. now rewrite Ed. }
  intro H. inversion H; subst. reflexivity.
Qed.

Lemma apply_changes_lines clock sql_now cs :
  forall i t n res t' n' res',
    apply_changes clock sql_now i cs t n res = inr (t', n', res') ->
    map line_tag res'
    = map line_tag res
      ++ map (fun c => (ch_change_type c, ch_employee_id c))
             (filter known_change_type cs).
Proof.
  induction cs as [| c cs IH]; simpl; intros i t n res t' n' res' H.
  - inversion H; subst. now rewrite app_nil_r.
  - destruct (apply_change (clock i) sql_now c t) as [e | [t1 l]] eqn:E;
      simpl in H; [discriminate |].
    apply IH in H. rewrite H, map_app, <- app_assoc. f_equal.
    rewrite (apply_change_lines _ _ _ _ _ _ E).
    now destruct (known_change_type c).
Qed.

(** X16.  The lines of a completed run's report follow the payload: one
    line per INSERT, UPDATE or DELETE change, in payload order and naming
    the change's type and employee, and no line for a change of any other
    type, which is counted all the same. *)
Theorem report_lines_follow_payload (clock : nat -> string) (sql_now : string)
    (w : world) (n : nat) (src id : string) (res : list result_line) :
  fst (process_sync_payload clock sql_now w) = SyncCompleted n src id res ->
  exists p,
    payload_file w = Some p
    /\ map line_tag res
       = map (fun c => (ch_change_type c, ch_employee_id c))
             (filter known_change_type (changes p))
    /\ List.length res <= n
    /\ src = source_system p
    /\ id = sync_id (metadata p).
Proof.
  intro Hrun.
  destruct (process_sync_payload_cases clock sql_now w)
    as [[_ E] | [(p & e & _ & _ & E) | (p & t' & n0 & res0 & Hp & Happ & E)]];
    rewrite E in Hrun; simpl in Hrun; try discriminate.
  inversion Hrun; subst. clear Hrun.
  exists p. split; [exact Hp |].
  pose proof (apply_changes_lines _ _ _ _ _ _ _ _ _ _ Happ) as Hl.
  simpl in Hl. split; [exact Hl |]. split; [| split; reflexivity].
  pose proof (apply_changes_count _ _ _ _ _ _ _ _ _ _ Happ) as Hn.
  rewrite <- (length_map line_tag), Hl, length_map, Hn. simpl.
  apply filter_length_le.
Qed.

Lemma report_lines_follow_payload_witness :
  exists p,
    payload_file world_mixed_batch = Some p
    /\ map line_tag
         [Added "EMP008" "Alan Turing"; Deactivated "EMP002";
          Updated "EMP009" "Edsger Dijkstra"; Updated "EMP001" "John Doe"]
       = map (fun c => (ch_change_type c, ch_employee_id c))
             (filter known_change_type (changes p))
    /\ 4 <= 5
    /\ "hr_system"%string = source_system p
    /\ "SYNC_20250102_100000"%string = sync_id (metadata p).
Proof.
  exact (report_lines_follow_payload tick "2025-01-03 09:00:00"
           world_mixed_batch 5 "hr_system" "SYNC_20250102_100000"
           [Added "EMP008" "Alan Turing"; Deactivated "EMP002";
            Updated "EMP009" "Edsger Dijkstra"; Updated "EMP001" "John Doe"]
           eq_refl).
Defined.


Lemma log_sync_ascending sql_now cs :
  forall log,
    ids_ascending (map sl_id log) ->
    ids_ascending (map sl_id (fold_left (log_sync sql_now) cs log)).
Proof.
  induction cs as [| c cs IH]; simpl; intros log H; [exact H |].
  apply IH. unfold log_sync, ids_ascending in *. rewrite map_app. simpl.
  change (0%Z :: map sl_id log ++ [next_id (map sl_id log)])
    with ((0%Z :: map sl_id log) ++ [next_id (map sl_id log)]).
  apply sorted_snoc; [exact H |].
  constructor; [apply next_id_positive | apply next_id_above].
Qed.

(** X18.  The audit log keeps positive, ascending ids: every row
    [process_sync_payload] appends gets an id above all ids already in
    [sync_log], so no audit row is ever overwritten or renumbered. *)
Theorem sync_log_ids_stay_ascending (clock : nat -> string) (sql_now : string)
    (w : world) :
  ids_ascending (map sl_id (sync_log (payroll_db w))) ->
  ids_ascending
    (map sl_id
       (sync_log (payroll_db (snd (process_sync_payload clock sql_now w))))).
Proof.
  intro H.
  destruct (process_sync_payload_cases clock sql_now w)
    as [[_ E] | [(p & e & _ & _ & E) | (p & t' & n & res & _ & _ & E)]];
    rewrite E; simpl; try exact H.
  now apply log_sync_ascending.
Qed.

Lemma sync_log_ids_stay_ascending_witness :
  ids_ascending
    (map sl_id
       (sync_log
          (payroll_db
             (snd (process_sync_payload tick "2025-01-03 09:30:00"
                     world_applied_once))))).
Proof.
  apply (sync_log_ids_stay_ascending tick "2025-01-03 09:30:00"
           world_applied_once).
  unfold ids_ascending. simpl. repeat constructor.
Defined.

(** The branch in which key [k] is missing: the change is rejected, and
    the key is one of the eight. *)
Ltac missing k :=
  split; [intros _; left; exists k; split; [simpl; tauto | assumption]
         | intros _; eexists; reflexivity].



Lemma find_none_all {A : Type} (p : A -> bool) (l : list A) :
  (forall x, In x l -> p x = false) -> find p l = None.
Proof.
  induction l as [| x l IH]; simpl; intro H; [reflexivity |].
  rewrite (H x (or_introl eq_refl)). apply IH. intros y Hy. apply H. now right.
Qed.

Lemma key_unique_same k v t a b :
  key_count k v t <= 1 -> In a t -> In b t ->
  key_has k v a = true -> key_has k v b = true -> a = b.
Proof.
  induction t as [| r t IH]; intros Hc Ha Hb Hka Hkb; [destruct Ha |].
  rewrite key_count_cons in Hc.
  assert (Hnone : forall x, In x t -> key_has k v x = true ->
                            key_has k v r = true -> False).
  { intros x Hx Hkx Hkr. rewrite Hkr in Hc.
    assert (1 <= key_count k v t).
    { clear - Hx Hkx. induction t as [| y t IH]; [destruct Hx |].
      rewrite key_count_cons. destruct Hx as [-> | Hx].
      - rewrite Hkx. lia.
      - specialize (IH Hx). lia. }
    lia. }
  destruct Ha as [-> | Ha], Hb as [-> | Hb]; auto.
  - exfalso. eapply Hnone; eassumption.
  - exfalso. eapply Hnone; eassumption.
  - apply IH; auto. destruct (key_has k v r); lia.
Qed.



(** ** The employees table (scripts/init_hr_db.py, scripts/add_update_employee.py) *)

Lemma not_in_ids eid rows :
  existsb (fun r => String.eqb (e_employee_id r) eid) rows = false ->
  ~ In eid (map e_employee_id rows).
Proof.
  intros H Hin. apply in_map_iff in Hin. destruct Hin as (r & <- & Hr).
  assert (existsb (fun x => String.eqb (e_employee_id x) (e_employee_id r))
            rows = true).
  { apply existsb_exists. exists r. split; [exact Hr | apply String.eqb_refl]. }
  congruence.
Qed.

Lemma NoDup_snoc {A : Type} (l : list A) (x : A) :
  NoDup l -> ~ In x l -> NoDup (l ++ [x]).
Proof.
  intros Hl Hx. apply NoDup_app; [exact Hl | repeat constructor; auto |].
  intros y Hy [<- | []]. contradiction.
Qed.

(** X21.  The primary key of [employees] holds through every mutation: the
    seed INSERT refuses a second row with an id that is in use,
    [add_employee] leaves the table alone in that case, and
    [update_employee] never changes an id. *)
Theorem employee_ids_stay_unique (db : hr_database) :
  NoDup (map e_employee_id (employees db)) ->
  (forall now eid fn ln em dp po sa st db',
      insert_employee now eid fn ln em dp po sa st db = Some db' ->
      NoDup (map e_employee_id (employees db'))
      /\ ~ In eid (map e_employee_id (employees db)))
  /\ (forall now eid fn ln em dp po sa db',
         add_employee now eid fn ln em dp po sa db = Some db' ->
         NoDup (map e_employee_id (employees db'))
         /\ (In eid (map e_employee_id (employees db)) -> db' = db))
  /\ (forall now eid updates db',
         update_employee now eid updates db = Some db' ->
         map e_employee_id (employees db') = map e_employee_id (employees db)).
Proof.
  intro Hnd. split; [| split].
  - intros now eid fn ln em dp po sa st db' H. unfold insert_employee in H.
    destruct (existsb _ (employees db)) eqn:Hex; simpl in H; [discriminate |].
    match type of H with
    | (if ?b then _ else _) = _ => destruct b; [| discriminate]
    end.
    inversion H; subst. simpl. apply not_in_ids in Hex.
    split; [| exact Hex]. rewrite map_app. simpl. now apply NoDup_snoc.
  - intros now eid fn ln em dp po sa db' H. unfold add_employee in H.
    destruct (existsb _ (employees db)) eqn:Hex.
    + inversion H; subst. auto.
    + match type of H with
      | (if ?b then _ else _) = _ => destruct b; [| discriminate]
      end.
      inversion H; subst. simpl. apply not_in_ids in Hex.
      split; [| intro; contradiction].
      rewrite map_app. simpl. now apply NoDup_snoc.
  - intros now eid updates db' H.
    destruct (update_employee_inv _ _ _ _ _ H) as [-> | [set Hsql]];
      [reflexivity |].
    apply sql_update_employees_inv in Hsql. destruct Hsql as [-> _].
    rewrite map_map. apply map_ext. intro r.
    destruct (String.eqb (e_employee_id r) eid); [| reflexivity].
    now destruct (assign_identity set r).
Qed.

Lemma employee_ids_stay_unique_witness :
  map e_employee_id (employees hr_after_raise)
  = map e_employee_id (employees hr_null_department).
Proof.
  refine (proj2 (proj2 (employee_ids_stay_unique hr_null_department _))
            "2025-01-02 10:00:00" "EMP006"
            [("salary", VInt 95000); ("nickname", VText "Countess")]
            hr_after_raise eq_refl).
  simpl. repeat constructor. simpl. tauto.
Defined.

(** [init_hr_database()] seeds five employees and five pending INSERT
    events, ids 1 to 5; the first extraction ships all five. *)
Example init_hr_database_seed :
  option_map (fun db => (map e_employee_id (employees db),
                         map (fun cl => (cl_id cl, cl_change_type cl,
                                         cl_processed cl))
                             (employee_change_log db)))
    (init_hr_database "2025-01-01 08:00:00")
  = Some (["EMP001"; "EMP002"; "EMP003"; "EMP004"; "EMP005"]%string,
          [ (1%Z, "INSERT"%string, false); (2%Z, "INSERT"%string, false);
            (3%Z, "INSERT"%string, false); (4%Z, "INSERT"%string, false);
            (5%Z, "INSERT"%string, false) ])
  /\ changes_processed
       (fst (create_sync_payload (store := rowid_asc_store) NoFault
               "2025-01-02T10:00:00" "20250102_100000"
               (world_of (init_hr_database "2025-01-01 08:00:00"))))
     = Some 5.
Proof. split; reflexivity. Qed.

(** ** Shared helpers (shared/utils.py) *)

Lemma prefix_append (s t : string) : String.prefix s (s ++ t)%string = true.
Proof.
  induction s as [| a s IH]; simpl.
  - now destruct t.
  - destruct (Ascii.ascii_dec a a); [exact IH | contradiction].
Qed.

Lemma prefix_append2 (s t u : string) :
  String.prefix (s ++ t)%string (s ++ t ++ u)%string = true.
Proof.
  induction s as [| a s IH]; simpl.
  - apply prefix_append.
  - destruct (Ascii.ascii_dec a a); [exact IH | contradiction].
Qed.

(** X22.  [format_validation_errors] answers with the no-issues message
    exactly when there is neither an error nor a warning; otherwise the text
    opens with the errors block when there is an error, and with the
    warnings block when there are only warnings. *)
Theorem format_validation_errors_shape (errors warnings : list string) :
  (format_validation_errors errors warnings = "✅ No validation issues"%string
   <-> errors = [] /\ warnings = [])
  /\ (errors <> [] ->
      String.prefix ("❌ ERRORS:" ++ newline)%string
        (format_validation_errors errors warnings) = true)
  /\ (errors = [] -> warnings <> [] ->
      String.prefix ("⚠️  WARNINGS:" ++ newline)%string
        (format_validation_errors errors warnings) = true).
Proof.
  unfold format_validation_errors.
  destruct errors as [| e errors].
  - destruct warnings as [| x warnings].
    + split; [split; auto |]. split; intros; contradiction.
    + cbn [app map String.concat]. split; [| split].
      * split; [| intros [_ H]; discriminate].
        intro H. exfalso. simpl in H. discriminate.
      * intro H. contradiction.
      * intros _ _. apply prefix_append2.
  - cbn [app map String.concat]. split; [| split].
    + split; [| intros [H _]; discriminate].
      intro H. exfalso. simpl in H. discriminate.
    + intros _. apply prefix_append2.
    + intro H. discriminate.
Qed.

(** The text for one error and one warning. *)
Example format_validation_errors_example :
  format_validation_errors ["email missing"%string] ["salary is zero"%string]
  = ("❌ ERRORS:" ++ newline ++ "  • email missing" ++ newline
     ++ "⚠️  WARNINGS:" ++ newline ++ "  • salary is zero")%string.
Proof. reflexivity. Qed.

(** ** From the HR database to the payroll table *)

Lemma select_unprocessed_single {store : OrderBy} db cl :
  filter unprocessed (employee_change_log db) = [cl] ->
  select_unprocessed db = [left_join db cl].
Proof.
  intro H. pose proof (select_unprocessed_perm db) as P. rewrite H in P.
  simpl in P. symmetry in P. now apply Permutation_length_1_inv in P.
Qed.

Lemma filter_snoc_only {A : Type} (p : A -> bool) (l : list A) (x : A) :
  filter p l = [] -> p x = true -> filter p (l ++ [x]) = [x].
Proof.
  intros Hl Hx. rewrite filter_app, Hl. simpl. now rewrite Hx.
Qed.



(** Single changes are idempotent, whole batches are not: the batch of
    [world_email_handover] completes, and the same payload applied again
    fails on its first change, because the address is now taken. *)
Example completed_batch_can_fail_when_reapplied :
  processed_count_of
    (fst (process_sync_payload tick "2025-01-03 09:00:00" world_email_handover))
  = Some 3
  /\ fst (process_sync_payload tick "2025-01-03 09:30:00"
            (snd (process_sync_payload tick "2025-01-03 09:00:00"
                    world_email_handover)))
     = ProcessError IntegrityError.
Proof. split; reflexivity. Qed.
